(** * The debug session of vscode-debugadapter: dispatcher, coordinate
      translation and error formatting

    A shallow embedding of [adapter/src/debugSession.ts].  JavaScript strings
    are modelled as [string] (sequences of code units below 256), numbers
    that hold integers as [Z] with the results of additions rounded to the
    nearest double, objects used as dictionaries as [gmap string _], optional
    properties and [null]/[undefined] as [option], and the mutable session and
    response objects by explicit state passing. *)

From Stdlib Require Import ZArith Lia Ascii String List.
From stdpp Require Import base option gmap strings.
From Equations Require Import Equations.

Local Open Scope string_scope.
Local Open Scope Z_scope.

(** ** Exceptions and completions *)

(** What a [throw] carries.  The runtime raises [TypeError]s (reading a
    property of [undefined] or [null], calling something that is not a
    function).  A handler can throw any value: [null] or [undefined], or a
    value of which the dispatcher reads the properties [message] and [stack],
    each [Some] when it holds a string (both do for an [Error] object) and
    [None] when it is undefined. *)
Inductive thrown : Type :=
| TypeError (what : string)
| ThrownNull
| Thrown (message stack : option string).

(** The completion of a pure expression: a value or a throw. *)
Inductive completion (A : Type) : Type :=
| Normal (a : A)
| Throw (e : thrown).
Arguments Normal {A} a.
Arguments Throw {A} e.

Definition bind {A B} (c : completion A) (k : A -> completion B) : completion B :=
  match c with
  | Normal a => k a
  | Throw e => Throw e
  end.

Notation "'let!' x ':=' c 'in' k" := (bind c (fun x => k))
  (at level 10, x name, c at level 100, k at level 200).

(** ** The token pattern [/{([^}]+)}/g] *)

Definition open_brace : ascii := "{".
Definition close_brace : ascii := "}".
Definition underscore : ascii := "_".

(** [[^}]*] matched greedily at the start of [s]: the longest run of
    characters other than the closing brace, and what follows it. *)
Fixpoint span_name (s : string) : string * string :=
  match s with
  | EmptyString => (EmptyString, EmptyString)
  | String c t =>
      if Ascii.eqb c close_brace then (EmptyString, s)
      else let (n, r) := span_name t in (String c n, r)
  end.

(** One attempt to match [_formatPIIRegexp] at the start of [s]: an opening
    brace, one or more characters other than the closing brace, a closing
    brace.  Returns the capture group and the text after the match.  The run
    is the longest one, so giving characters back cannot produce a match the
    greedy attempt misses. *)
Definition _formatPIIRegexp_exec (s : string) : option (string * string) :=
  match s with
  | EmptyString => None
  | String c t =>
      if Ascii.eqb c open_brace then
        match span_name t with
        | (String c1 n, String c2 r) =>
            if Ascii.eqb c2 close_brace then Some (String c1 n, r) else None
        | _ => None
        end
      else None
  end.

(** The text of a match whose capture group is [paramName]. *)
Definition token (paramName : string) : string :=
  String open_brace (paramName ++ String close_brace EmptyString).

Definition inspect {A} (a : A) : {b | a = b} := exist _ a eq_refl.

(** [String.prototype.replace] with the global pattern above and a replacer
    function: scanning from the left, every match is replaced by what the
    replacer returns for (match, capture group) and the scan resumes after
    the match; where the pattern does not match, one character is copied.
    A throw of the replacer ends the call. *)
Equations? String_replace (replacer : string -> string -> completion string)
    (s : string) : completion string by wf (String.length s) lt :=
  String_replace replacer EmptyString := Normal EmptyString;
  String_replace replacer (String c t)
    with inspect (_formatPIIRegexp_exec (String c t)) => {
    | exist _ (Some (paramName, rest)) Heq =>
        let! r := replacer (token paramName) paramName in
        let! out := String_replace replacer rest in
        Normal (r ++ out);
    | exist _ None _ =>
        let! out := String_replace replacer t in
        Normal (String c out) }.
Proof.
  (* the text after a match is shorter than the text the match started in *)
  assert (Hspan : forall u n0 r0, span_name u = (n0, r0) ->
            String.length u = (String.length n0 + String.length r0)%nat).
  { induction u as [|a u IH]; simpl; intros n0 r0.
    - intros [= <- <-]. reflexivity.
    - destruct (Ascii.eqb a close_brace).
      + intros [= <- <-]. reflexivity.
      + destruct (span_name u) as [n' r'] eqn:E. intros [= <- <-]. simpl.
        rewrite (IH _ _ eq_refl). reflexivity. }
  change (_formatPIIRegexp_exec (String c t) = Some (paramName, rest)) in Heq.
  unfold _formatPIIRegexp_exec in Heq.
  destruct (Ascii.eqb c open_brace); [|discriminate].
  destruct (span_name t) as [[|c1 n1] [|c2 r2]] eqn:E; try discriminate.
  destruct (Ascii.eqb c2 close_brace); [|discriminate].
  injection Heq as <- <-. apply Hspan in E. simpl in *. lia.
Qed.

(** ** Property lookup on a dictionary object *)

(** The names every plain object inherits from [Object.prototype]; all of
    them hold functions or objects, which are truthy. *)
Definition Object_prototype : list string :=
  [ "constructor"; "hasOwnProperty"; "isPrototypeOf"; "propertyIsEnumerable";
    "toLocaleString"; "toString"; "valueOf"; "__defineGetter__";
    "__defineSetter__"; "__lookupGetter__"; "__lookupSetter__"; "__proto__" ].

Definition inherited (paramName : string) : bool :=
  bool_decide (paramName ∈ Object_prototype).

(** Truthiness of [args[paramName]]: an own property holds a string, truthy
    unless empty; otherwise the lookup falls through to the prototype. *)
Definition truthy_get (args : gmap string string) (paramName : string) : bool :=
  match args !! paramName with
  | Some v => negb (String.eqb v EmptyString)
  | None => inherited paramName
  end.

(** [args.hasOwnProperty(paramName)]: the method is itself looked up on
    [args], so an own property of that name, a string, shadows it and the
    call throws. *)
Definition hasOwnProperty (args : gmap string string) (paramName : string)
    : completion bool :=
  match args !! "hasOwnProperty" with
  | Some _ => Throw (TypeError "args.hasOwnProperty is not a function")
  | None => Normal (bool_decide (is_Some (args !! paramName)))
  end.

(** ** formatPII *)

Definition starts_with_underscore (paramName : string) : bool :=
  match paramName with
  | String c _ => Ascii.eqb c underscore
  | EmptyString => false
  end.

(** The replacer of [formatPII]. *)
Definition formatPII_replacer (excludePII : bool)
    (args : option (gmap string string)) (match_ paramName : string)
    : completion string :=
  if excludePII && (0 <? String.length paramName)%nat
     && negb (starts_with_underscore paramName)
  then Normal match_
  else
    match args with
    | None => Throw (TypeError "Cannot read property of undefined")
    | Some o =>
        if truthy_get o paramName then
          let! own := hasOwnProperty o paramName in
          Normal (if own : bool then default match_ (o !! paramName) else match_)
        else Normal match_
    end.

(** [formatPII(format, excludePII, args)]; [format] and [args] are [None]
    when the caller passes [undefined] or [null]. *)
Definition formatPII (format : option string) (excludePII : bool)
    (args : option (gmap string string)) : completion string :=
  match format with
  | None => Throw (TypeError "Cannot read property 'replace' of undefined")
  | Some f => String_replace (formatPII_replacer excludePII args) f
  end.

(** ** Protocol messages *)

(** [DebugProtocol.Message], the structured error. *)
Module Message.
Record t : Type := mk {
  id : Z;
  format : option string;
  variables : option (gmap string string);
  showUser : option bool;
  sendTelemetry : option bool }.
End Message.

(** The body of a response: the [error] property of an error response and
    the capabilities the [initialize] handler advertises. *)
Module Body.
Record t : Type := mk {
  error : option Message.t;
  supportsConditionalBreakpoints : option bool;
  supportsFunctionBreakpoints : option bool;
  supportsConfigurationDoneRequest : option bool;
  supportsEvaluateForHovers : option bool;
  supportsStepBack : option bool;
  supportsSetVariable : option bool }.

(** The object literal [{ }]. *)
Definition empty : t := mk None None None None None None None.

Definition set_error (m : Message.t) (b : t) : t :=
  mk (Some m) (supportsConditionalBreakpoints b)
     (supportsFunctionBreakpoints b) (supportsConfigurationDoneRequest b)
     (supportsEvaluateForHovers b) (supportsStepBack b)
     (supportsSetVariable b).
End Body.

Module Response.
Record t : Type := mk {
  request_seq : Z;
  command : string;
  success : bool;
  message : option string;
  body : option Body.t }.

Definition set_success (v : bool) (r : t) : t :=
  mk (request_seq r) (command r) v (message r) (body r).
Definition set_message (v : string) (r : t) : t :=
  mk (request_seq r) (command r) (success r) (Some v) (body r).
Definition set_body (v : Body.t) (r : t) : t :=
  mk (request_seq r) (command r) (success r) (message r) (Some v).
End Response.

(** The arguments object of a request, as far as the dispatcher reads it.
    [linesStartAt1] and [columnsStartAt1] are [Some b] when [typeof] of the
    property is ['boolean'], [pathFormat] is [Some s] when it is a string. *)
Module InitializeRequestArguments.
Record t : Type := mk {
  linesStartAt1 : option bool;
  columnsStartAt1 : option bool;
  pathFormat : option string }.
End InitializeRequestArguments.

Module Request.
Record t : Type := mk {
  seq : Z;
  command : string;
  arguments : option InitializeRequestArguments.t }.
End Request.

(** Modelled from the spec: the constructor of [Response] lives in
    [messages.ts], which is not among the sources.  The shell is correlated
    to the request (same sequence number and command) and [success] defaults
    to true. *)
Definition Response_new (request : Request.t) : Response.t :=
  Response.mk (Request.seq request) (Request.command request) true None None.

Module ErrorDestination.
Definition User : Z := 1.
Definition Telemetry : Z := 2.
End ErrorDestination.

(** ** The session object *)

(** The fields of [DebugSession], followed by what the session does to the
    outside: the responses handed to the transport, the lines written to
    the error console and the delays of the exit timers, oldest first. *)
Record DebugSession : Type := mkDebugSession {
  _debuggerLinesStartAt1 : bool;
  _debuggerColumnsStartAt1 : bool;
  _debuggerPathsAreURIs : bool;
  _clientLinesStartAt1 : bool;
  _clientColumnsStartAt1 : bool;
  _clientPathsAreURIs : bool;
  _isServer : bool;
  sent : list Response.t;
  console_error : list string;
  exit_timers : list Z }.

Definition set_clientLinesStartAt1 (v : bool) (this : DebugSession) : DebugSession :=
  mkDebugSession (_debuggerLinesStartAt1 this) (_debuggerColumnsStartAt1 this)
    (_debuggerPathsAreURIs this) v (_clientColumnsStartAt1 this)
    (_clientPathsAreURIs this) (_isServer this) (sent this)
    (console_error this) (exit_timers this).

Definition set_clientColumnsStartAt1 (v : bool) (this : DebugSession) : DebugSession :=
  mkDebugSession (_debuggerLinesStartAt1 this) (_debuggerColumnsStartAt1 this)
    (_debuggerPathsAreURIs this) (_clientLinesStartAt1 this) v
    (_clientPathsAreURIs this) (_isServer this) (sent this)
    (console_error this) (exit_timers this).

(** The constructor; an argument is [Some b] when its [typeof] is
    ['boolean']. *)
Definition DebugSession_new
    (obsolete_debuggerLinesAndColumnsStartAt1 obsolete_isServer : option bool)
    : DebugSession :=
  let linesAndColumnsStartAt1 :=
    default false obsolete_debuggerLinesAndColumnsStartAt1 in
  mkDebugSession linesAndColumnsStartAt1 linesAndColumnsStartAt1 false
    true true false (default false obsolete_isServer) [] [] [].

Definition setDebuggerPathFormat (format : string) (this : DebugSession) : DebugSession :=
  mkDebugSession (_debuggerLinesStartAt1 this) (_debuggerColumnsStartAt1 this)
    (negb (String.eqb format "path")) (_clientLinesStartAt1 this)
    (_clientColumnsStartAt1 this) (_clientPathsAreURIs this) (_isServer this)
    (sent this) (console_error this) (exit_timers this).

Definition setDebuggerLinesStartAt1 (enable : bool) (this : DebugSession) : DebugSession :=
  mkDebugSession enable (_debuggerColumnsStartAt1 this)
    (_debuggerPathsAreURIs this) (_clientLinesStartAt1 this)
    (_clientColumnsStartAt1 this) (_clientPathsAreURIs this) (_isServer this)
    (sent this) (console_error this) (exit_timers this).

Definition setDebuggerColumnsStartAt1 (enable : bool) (this : DebugSession) : DebugSession :=
  mkDebugSession (_debuggerLinesStartAt1 this) enable
    (_debuggerPathsAreURIs this) (_clientLinesStartAt1 this)
    (_clientColumnsStartAt1 this) (_clientPathsAreURIs this) (_isServer this)
    (sent this) (console_error this) (exit_timers this).

Definition setRunAsServer (enable : bool) (this : DebugSession) : DebugSession :=
  mkDebugSession (_debuggerLinesStartAt1 this) (_debuggerColumnsStartAt1 this)
    (_debuggerPathsAreURIs this) (_clientLinesStartAt1 this)
    (_clientColumnsStartAt1 this) (_clientPathsAreURIs this) enable
    (sent this) (console_error this) (exit_timers this).

(** Modelled from the spec: [sendResponse] is inherited from
    [ProtocolServer] ([protocol.ts], not among the sources).  The transport
    accepts the response object for transmission; the log keeps the state
    the object has at that moment. *)
Definition sendResponse (response : Response.t) (this : DebugSession) : DebugSession :=
  mkDebugSession (_debuggerLinesStartAt1 this) (_debuggerColumnsStartAt1 this)
    (_debuggerPathsAreURIs this) (_clientLinesStartAt1 this)
    (_clientColumnsStartAt1 this) (_clientPathsAreURIs this) (_isServer this)
    (sent this ++ [response]) (console_error this) (exit_timers this).

Definition shutdown (this : DebugSession) : DebugSession :=
  if _isServer this then
    mkDebugSession (_debuggerLinesStartAt1 this) (_debuggerColumnsStartAt1 this)
      (_debuggerPathsAreURIs this) (_clientLinesStartAt1 this)
      (_clientColumnsStartAt1 this) (_clientPathsAreURIs this) (_isServer this)
      (sent this)
      (console_error this ++ ["process.exit ignored in server mode"])
      (exit_timers this)
  else
    mkDebugSession (_debuggerLinesStartAt1 this) (_debuggerColumnsStartAt1 this)
      (_debuggerPathsAreURIs this) (_clientLinesStartAt1 this)
      (_clientColumnsStartAt1 this) (_clientPathsAreURIs this) (_isServer this)
      (sent this) (console_error this) (exit_timers this ++ [100]).

(** How a method that works on the session and on a response object ends:
    both objects are mutable, so their state is handed on in either case. *)
Inductive outcome : Type :=
| Returned (this : DebugSession) (response : Response.t)
| Threw (e : thrown) (this : DebugSession) (response : Response.t).

(** ** sendErrorResponse *)

(** The local [msg] of [sendErrorResponse]: built from a numeric code, the
    template, the variables and the destination ([None]: argument left out,
    the default [ErrorDestination.User] applies), or the message passed in. *)
Definition sendErrorResponse_msg (codeOrMessage : Z + Message.t)
    (format : option string) (variables : option (gmap string string))
    (dest : option Z) : Message.t :=
  match codeOrMessage with
  | inl code =>
      let dest := default ErrorDestination.User dest in
      Message.mk code format variables
        (if Z.land dest ErrorDestination.User =? 0 then None else Some true)
        (if Z.land dest ErrorDestination.Telemetry =? 0 then None else Some true)
  | inr message => message
  end.

Definition sendErrorResponse (response : Response.t)
    (codeOrMessage : Z + Message.t) (format : option string)
    (variables : option (gmap string string)) (dest : option Z)
    (this : DebugSession) : outcome :=
  let msg := sendErrorResponse_msg codeOrMessage format variables dest in
  let response := Response.set_success false response in
  match formatPII (Message.format msg) true (Message.variables msg) with
  | Throw e => Threw e this response
  | Normal text =>
      let response := Response.set_message text response in
      let body := default Body.empty (Response.body response) in
      let response := Response.set_body (Body.set_error msg body) response in
      Returned (sendResponse response this) response
  end.

(** ** The request handlers *)

(** A handler receives the response shell and the arguments of the request.
    [threadsRequest] takes no arguments, [initializeRequest] is only reached
    with an arguments object, [customRequest] also gets the command name. *)
Definition handler : Type :=
  Response.t -> option InitializeRequestArguments.t -> DebugSession -> outcome.

(** The overridable methods the dispatcher calls through [this]. *)
Module Methods.
Record t : Type := mk {
  initializeRequest :
    Response.t -> InitializeRequestArguments.t -> DebugSession -> outcome;
  launchRequest : handler;
  attachRequest : handler;
  disconnectRequest : handler;
  setBreakPointsRequest : handler;
  setFunctionBreakPointsRequest : handler;
  setExceptionBreakPointsRequest : handler;
  configurationDoneRequest : handler;
  continueRequest : handler;
  nextRequest : handler;
  stepInRequest : handler;
  stepOutRequest : handler;
  stepBackRequest : handler;
  pauseRequest : handler;
  stackTraceRequest : handler;
  scopesRequest : handler;
  variablesRequest : handler;
  setVariableRequest : handler;
  sourceRequest : handler;
  threadsRequest : Response.t -> DebugSession -> outcome;
  evaluateRequest : handler;
  customRequest : string -> handler }.
End Methods.

(** The implementations of [DebugSession] itself. *)

Definition initializeRequest (response : Response.t)
    (args : InitializeRequestArguments.t) (this : DebugSession) : outcome :=
  match Response.body response with
  | None =>
      Threw (TypeError "Cannot set property of undefined") this response
  | Some body =>
      let response :=
        Response.set_body
          (Body.mk (Body.error body) (Some false) (Some false) (Some true)
             (Some false) (Some false) (Some false)) response in
      Returned (sendResponse response this) response
  end.

Definition disconnectRequest : handler := fun response args this =>
  Returned (shutdown (sendResponse response this)) response.

Definition launchRequest : handler := fun response args this =>
  Returned (sendResponse response this) response.

Definition attachRequest : handler := fun response args this =>
  Returned (sendResponse response this) response.

Definition setBreakPointsRequest : handler := fun response args this =>
  Returned (sendResponse response this) response.

Definition setFunctionBreakPointsRequest : handler := fun response args this =>
  Returned (sendResponse response this) response.

Definition setExceptionBreakPointsRequest : handler := fun response args this =>
  Returned (sendResponse response this) response.

Definition configurationDoneRequest : handler := fun response args this =>
  Returned (sendResponse response this) response.

Definition continueRequest : handler := fun response args this =>
  Returned (sendResponse response this) response.

Definition nextRequest : handler := fun response args this =>
  Returned (sendResponse response this) response.

Definition stepInRequest : handler := fun response args this =>
  Returned (sendResponse response this) response.

Definition stepOutRequest : handler := fun response args this =>
  Returned (sendResponse response this) response.

Definition stepBackRequest : handler := fun response args this =>
  Returned (sendResponse response this) response.

Definition pauseRequest : handler := fun response args this =>
  Returned (sendResponse response this) response.

Definition sourceRequest : handler := fun response args this =>
  Returned (sendResponse response this) response.

Definition threadsRequest (response : Response.t) (this : DebugSession) : outcome :=
  Returned (sendResponse response this) response.

Definition stackTraceRequest : handler := fun response args this =>
  Returned (sendResponse response this) response.

Definition scopesRequest : handler := fun response args this =>
  Returned (sendResponse response this) response.

Definition variablesRequest : handler := fun response args this =>
  Returned (sendResponse response this) response.

Definition setVariableRequest : handler := fun response args this =>
  Returned (sendResponse response this) response.

Definition evaluateRequest : handler := fun response args this =>
  Returned (sendResponse response this) response.

Definition customRequest (command : string) : handler := fun response args this =>
  sendErrorResponse response (inl 1014) (Some "unrecognized request") None
    (Some ErrorDestination.Telemetry) this.

(** The session with no method overridden. *)
Definition DebugSession_methods : Methods.t :=
  Methods.mk initializeRequest launchRequest attachRequest disconnectRequest
    setBreakPointsRequest setFunctionBreakPointsRequest
    setExceptionBreakPointsRequest configurationDoneRequest continueRequest
    nextRequest stepInRequest stepOutRequest stepBackRequest pauseRequest
    stackTraceRequest scopesRequest variablesRequest setVariableRequest
    sourceRequest threadsRequest evaluateRequest customRequest.

(** ** dispatchRequest *)

(** The object literal [{ _exception: m, _stack: st }].  A property whose
    value is undefined is left out: the formatter treats it as it treats a
    missing one, and it is not transmitted. *)
Definition exception_variables (m st : option string) : gmap string string :=
  let variables : gmap string string :=
    match st with
    | Some st => <["_stack" := st]> ∅
    | None => ∅
    end in
  match m with
  | Some m => <["_exception" := m]> variables
  | None => variables
  end.

Section Dispatch.

(** The methods of the concrete session class. *)
Variable methods : Methods.t.

(** The [message] and [stack] the engine gives a [TypeError]. *)
Variables TypeError_message TypeError_stack : string -> string.

(** [e.message] and [e.stack]: reading a property of [null] or
    [undefined] throws. *)
Definition e_message (e : thrown) : completion (option string) :=
  match e with
  | TypeError what => Normal (Some (TypeError_message what))
  | ThrownNull => Throw (TypeError "Cannot read property 'message' of null")
  | Thrown message _ => Normal message
  end.

Definition e_stack (e : thrown) : completion (option string) :=
  match e with
  | TypeError what => Normal (Some (TypeError_stack what))
  | ThrownNull => Throw (TypeError "Cannot read property 'stack' of null")
  | Thrown _ stack => Normal stack
  end.

(** The body of the [try] block. *)
Definition dispatchRequest_try (request : Request.t)
    (response : Response.t) (this : DebugSession) : outcome :=
  let command := Request.command request in
  let arguments := Request.arguments request in
  if String.eqb command "initialize" then
    match arguments with
    | None =>
        Threw (TypeError "Cannot read property 'linesStartAt1' of undefined")
          this response
    | Some args =>
        let this :=
          match InitializeRequestArguments.linesStartAt1 args with
          | Some b => set_clientLinesStartAt1 b this
          | None => this
          end in
        let this :=
          match InitializeRequestArguments.columnsStartAt1 args with
          | Some b => set_clientColumnsStartAt1 b this
          | None => this
          end in
        if negb (bool_decide
                   (InitializeRequestArguments.pathFormat args = Some "path"))
        then
          sendErrorResponse response (inl 2018)
            (Some "debug adapter only supports native paths") None
            (Some ErrorDestination.Telemetry) this
        else
          let initializeResponse := Response.set_body Body.empty response in
          Methods.initializeRequest methods initializeResponse args this
    end
  else if String.eqb command "launch" then
    Methods.launchRequest methods response arguments this
  else if String.eqb command "attach" then
    Methods.attachRequest methods response arguments this
  else if String.eqb command "disconnect" then
    Methods.disconnectRequest methods response arguments this
  else if String.eqb command "setBreakpoints" then
    Methods.setBreakPointsRequest methods response arguments this
  else if String.eqb command "setFunctionBreakpoints" then
    Methods.setFunctionBreakPointsRequest methods response arguments this
  else if String.eqb command "setExceptionBreakpoints" then
    Methods.setExceptionBreakPointsRequest methods response arguments this
  else if String.eqb command "configurationDone" then
    Methods.configurationDoneRequest methods response arguments this
  else if String.eqb command "continue" then
    Methods.continueRequest methods response arguments this
  else if String.eqb command "next" then
    Methods.nextRequest methods response arguments this
  else if String.eqb command "stepIn" then
    Methods.stepInRequest methods response arguments this
  else if String.eqb command "stepOut" then
    Methods.stepOutRequest methods response arguments this
  else if String.eqb command "stepBack" then
    Methods.stepBackRequest methods response arguments this
  else if String.eqb command "pause" then
    Methods.pauseRequest methods response arguments this
  else if String.eqb command "stackTrace" then
    Methods.stackTraceRequest methods response arguments this
  else if String.eqb command "scopes" then
    Methods.scopesRequest methods response arguments this
  else if String.eqb command "variables" then
    Methods.variablesRequest methods response arguments this
  else if String.eqb command "setVariable" then
    Methods.setVariableRequest methods response arguments this
  else if String.eqb command "source" then
    Methods.sourceRequest methods response arguments this
  else if String.eqb command "threads" then
    Methods.threadsRequest methods response this
  else if String.eqb command "evaluate" then
    Methods.evaluateRequest methods response arguments this
  else
    Methods.customRequest methods command response arguments this.

Definition dispatchRequest (request : Request.t) (this : DebugSession) : outcome :=
  let response := Response_new request in
  match dispatchRequest_try request response this with
  | Returned this response => Returned this response
  | Threw e this response =>
      match e_message e with
      | Throw error => Threw error this response
      | Normal m =>
          match e_stack e with
          | Throw error => Threw error this response
          | Normal st =>
              sendErrorResponse response (inl 1104) (Some "{_stack}")
                (Some (exception_variables m st))
                (Some ErrorDestination.Telemetry) this
          end
      end
  end.

End Dispatch.

(** ** Line and column translation *)

(** A number is a double.  Those that hold an integer are modelled by
    that integer; [Number_round x] is the double nearest to the integer [x],
    the one with the even significand when two are equally near.  Up to
    2^53 in size every integer is a double; from there on the doubles are
    2, 4, 8, ... apart. *)
Definition Number_round (x : Z) : Z :=
  let q := 2 ^ Z.max 0 (Z.log2 (Z.abs x) - 52) in
  let below := x / q * q in
  let rest := x mod q in
  if 2 * rest <? q then below
  else if q <? 2 * rest then below + q
  else if Z.even (x / q) then below else below + q.

(** [a + b] and [a - b] on numbers. *)
Definition Number_add (a b : Z) : Z := Number_round (a + b).
Definition Number_sub (a b : Z) : Z := Number_round (a - b).

Definition convertClientLineToDebugger (this : DebugSession) (line : Z) : Z :=
  if _debuggerLinesStartAt1 this then
    (if _clientLinesStartAt1 this then line else Number_add line 1)
  else
    (if _clientLinesStartAt1 this then Number_sub line 1 else line).

Definition convertDebuggerLineToClient (this : DebugSession) (line : Z) : Z :=
  if _debuggerLinesStartAt1 this then
    (if _clientLinesStartAt1 this then line else Number_sub line 1)
  else
    (if _clientLinesStartAt1 this then Number_add line 1 else line).

Definition convertClientColumnToDebugger (this : DebugSession) (column : Z) : Z :=
  if _debuggerColumnsStartAt1 this then
    (if _clientColumnsStartAt1 this then column else Number_add column 1)
  else
    (if _clientColumnsStartAt1 this then Number_sub column 1 else column).

Definition convertDebuggerColumnToClient (this : DebugSession) (column : Z) : Z :=
  if _debuggerColumnsStartAt1 this then
    (if _clientColumnsStartAt1 this then column else Number_sub column 1)
  else
    (if _clientColumnsStartAt1 this then Number_add column 1 else column).

(** ** Path and URI translation *)

Definition backslash : ascii := ascii_of_nat 92.
Definition slash : ascii := "/".

Definition in_string (c : ascii) (s : string) : bool :=
  existsb (Ascii.eqb c) (list_ascii_of_string s).

Definition is_alpha (c : ascii) : bool :=
  let n := N_of_ascii c in
  ((65 <=? n) && (n <=? 90) || (97 <=? n) && (n <=? 122))%N.

Definition is_digit (c : ascii) : bool :=
  let n := N_of_ascii c in ((48 <=? n) && (n <=? 57))%N.

Definition uriReserved : string := ";/?:@&=+$,".
Definition uriMark : string := "-_.!~*'()".

(** The characters [encodeURI] copies: reserved and unreserved URI
    characters and the number sign. *)
Definition encodeURI_unescaped (c : ascii) : bool :=
  is_alpha c || is_digit c || in_string c uriMark || in_string c uriReserved
  || Ascii.eqb c "#".

Definition hex_digit (n : N) : ascii :=
  nth (N.to_nat n) (list_ascii_of_string "0123456789ABCDEF") "0"%char.

Definition percent_octet (n : N) : string :=
  String "%" (String (hex_digit (n / 16)) (String (hex_digit (n mod 16)) EmptyString)).

(** One code unit under [encodeURI]: copied, or the octets of its UTF-8
    encoding, each escaped (one octet below 128, two from 128 to 255). *)
Definition encodeURI_unit (c : ascii) : string :=
  if encodeURI_unescaped c then String c EmptyString
  else
    let n := N_of_ascii c in
    if (n <? 128)%N then percent_octet n
    else percent_octet (192 + n / 64) ++ percent_octet (128 + n mod 64).

(** Modelled from the spec: [encodeURI] is a built-in of the runtime
    ("percent-encode per URI rules"), here on code units below 256.  Strings
    with other code units are outside the model; on those the built-in escapes
    the octets of the character, and throws a [URIError] when a surrogate
    stands alone. *)
Fixpoint encodeURI (s : string) : string :=
  match s with
  | EmptyString => EmptyString
  | String c t => encodeURI_unit c ++ encodeURI t
  end.

(** [str.replace(/\\/g, '/')]. *)
Fixpoint replace_backslashes (str : string) : string :=
  match str with
  | EmptyString => EmptyString
  | String c t =>
      String (if Ascii.eqb c backslash then slash else c) (replace_backslashes t)
  end.

Definition path2uri (str : string) : string :=
  let pathName := replace_backslashes str in
  let pathName :=
    match pathName with
    | String c _ => if Ascii.eqb c slash then pathName else String slash pathName
    | EmptyString => String slash pathName
    end in
  encodeURI ("file://" ++ pathName).

(** The characters the URL parser escapes wherever they occur after the
    host: quote, braces, bar, backslash, caret, backquote, angle brackets,
    double quote, space, carriage return, line feed, tab. *)
Definition autoEscape : list ascii :=
  map ascii_of_nat [39; 123; 125; 124; 92; 94; 96; 60; 62; 34; 32; 13; 10; 9]%nat.

Fixpoint auto_escape (s : string) : string :=
  match s with
  | EmptyString => EmptyString
  | String c t =>
      (if existsb (Ascii.eqb c) autoEscape then percent_octet (N_of_ascii c)
       else String c EmptyString) ++ auto_escape t
  end.

(** The part of [s] before the first occurrence of [d]. *)
Fixpoint cut_at (d : ascii) (s : string) : string :=
  match s with
  | EmptyString => EmptyString
  | String c t => if Ascii.eqb c d then EmptyString else String c (cut_at d t)
  end.

Fixpoint strip_prefix (p s : string) : option string :=
  match p, s with
  | EmptyString, _ => Some s
  | String a p', String b s' => if Ascii.eqb a b then strip_prefix p' s' else None
  | String _ _, EmptyString => None
  end.

Definition uri_alphabet (c : ascii) : bool :=
  encodeURI_unescaped c || Ascii.eqb c "%".

(** Modelled from the spec: [Url.parse(url).pathname] of the runtime's [url]
    module ("extract the path component of a parsed URI"), on the URLs
    [path2uri] produces: the scheme [file:] with two slashes and an empty
    host, over the characters [encodeURI] can output.  After the host the
    parser escapes the [autoEscape] characters, then drops the fragment from
    the first number sign and the query from the first question mark; what
    is left is the path name.  [None] stands for a URL of another shape. *)
Definition Url_parse_pathname (url : string) : option string :=
  if forallb uri_alphabet (list_ascii_of_string url) then
    match strip_prefix "file://" url with
    | Some (String c rest) =>
        if Ascii.eqb c slash
        then Some (cut_at "?" (cut_at "#" (auto_escape (String c rest))))
        else None
    | _ => None
    end
  else None.

Definition uri2path (url : string) : option string :=
  Url_parse_pathname url.

Definition convertClientPathToDebugger (this : DebugSession)
    (clientPath : string) : option string :=
  if negb (Bool.eqb (_clientPathsAreURIs this) (_debuggerPathsAreURIs this)) then
    if _clientPathsAreURIs this then uri2path clientPath
    else Some (path2uri clientPath)
  else Some clientPath.

Definition convertDebuggerPathToClient (this : DebugSession)
    (debuggerPath : string) : option string :=
  if negb (Bool.eqb (_debuggerPathsAreURIs this) (_clientPathsAreURIs this)) then
    if _debuggerPathsAreURIs this then uri2path debuggerPath
    else Some (path2uri debuggerPath)
  else Some debuggerPath.

(** ** Vocabulary of the specification *)

(** A text holds a closing brace. *)
Fixpoint has_close_brace (s : string) : bool :=
  match s with
  | EmptyString => false
  | String c t => Ascii.eqb c close_brace || has_close_brace t
  end.

(** What the formatter puts in the place of the placeholder [name]: the
    value of the variable when the mapping has a non-empty value for it and
    the name may be shown (no redaction, or a leading underscore), else the
    placeholder itself. *)
Definition placeholder_value (redact : bool) (args : gmap string string)
    (name : string) : string :=
  match args !! name with
  | Some v =>
      if negb (String.eqb v EmptyString)
         && (negb redact || starts_with_underscore name)
      then v else token name
  | None => token name
  end.

(** The command names the dispatcher routes to a handler of their own. *)
Definition recognized_commands : list string :=
  [ "initialize"; "launch"; "attach"; "disconnect"; "setBreakpoints";
    "setFunctionBreakpoints"; "setExceptionBreakpoints"; "configurationDone";
    "continue"; "next"; "stepIn"; "stepOut"; "stepBack"; "pause";
    "stackTrace"; "scopes"; "variables"; "setVariable"; "source"; "threads";
    "evaluate" ].

Definition recognized (command : string) : bool :=
  existsb (String.eqb command) recognized_commands.

(** A request of the recognized set that the session can honour: an
    [initialize] request has to ask for native paths, the other commands
    need nothing. *)
Definition minimally_valid (request : Request.t) : bool :=
  recognized (Request.command request)
  && (negb (String.eqb (Request.command request) "initialize")
      || match Request.arguments request with
         | Some args =>
             bool_decide (InitializeRequestArguments.pathFormat args = Some "path")
         | None => false
         end).

(** The client flags after the dispatcher has read the [initialize]
    arguments: a boolean argument replaces the flag, anything else leaves
    it. *)
Definition client_flags_from (args : InitializeRequestArguments.t)
    (this : DebugSession) : DebugSession :=
  let this :=
    match InitializeRequestArguments.linesStartAt1 args with
    | Some b => set_clientLinesStartAt1 b this
    | None => this
    end in
  match InitializeRequestArguments.columnsStartAt1 args with
  | Some b => set_clientColumnsStartAt1 b this
  | None => this
  end.

(** The session and the response object a call leaves behind. *)
Definition outcome_session (o : outcome) : DebugSession :=
  match o with
  | Returned this _ => this
  | Threw _ this _ => this
  end.

Definition outcome_response (o : outcome) : Response.t :=
  match o with
  | Returned _ response => response
  | Threw _ _ response => response
  end.

(** The error of a response body, if any. *)
Definition body_error (response : Response.t) : option Message.t :=
  match Response.body response with
  | Some body => Body.error body
  | None => None
  end.

(** The response [sendErrorResponse] sends when the formatter returns
    [text]. *)
Definition error_response (response : Response.t) (msg : Message.t)
    (text : string) : Response.t :=
  Response.mk (Response.request_seq response) (Response.command response)
    false (Some text)
    (Some (Body.set_error msg (default Body.empty (Response.body response)))).

(** The response the dispatcher's [catch] clause sends for the exception
    [e] caught while the response object was [response]. *)
Definition exception_message (m st : option string) : Message.t :=
  Message.mk 1104 (Some "{_stack}") (Some (exception_variables m st))
    None (Some true).

(** The text the formatter makes of the placeholder of a variable with the
    value [v]: the value, unless there is none or it is empty. *)
Definition shown (name : string) (v : option string) : string :=
  match v with
  | Some text => if String.eqb text EmptyString then token name else text
  | None => token name
  end.

Definition exception_response (response : Response.t) (m st : option string)
    : Response.t :=
  error_response response (exception_message m st) (shown "_stack" st).

(** A session whose [launch] handler sends nothing and throws [e]. *)
Definition throwing_launch (e : thrown) : Methods.t :=
  Methods.mk initializeRequest
    (fun response args this => Threw e this response)
    attachRequest disconnectRequest
    setBreakPointsRequest setFunctionBreakPointsRequest
    setExceptionBreakPointsRequest configurationDoneRequest continueRequest
    nextRequest stepInRequest stepOutRequest stepBackRequest pauseRequest
    stackTraceRequest scopesRequest variablesRequest setVariableRequest
    sourceRequest threadsRequest evaluateRequest customRequest.

(** 0 or 1, the number of the first line or column. *)
Definition base (startAt1 : bool) : Z := if startAt1 then 1 else 0.

(** A character of a path that travels unchanged through [path2uri] and
    [uri2path]: copied by [encodeURI], and neither the quote the URL parser
    escapes nor a delimiter of the query or the fragment. *)
Definition path_plain (c : ascii) : bool :=
  encodeURI_unescaped c && negb (in_string c "'?#").

Definition rooted (p : string) : bool :=
  match p with
  | String c _ => Ascii.eqb c slash
  | EmptyString => false
  end.

(** ** Starting a session *)

(** [/^--server=(\d{4,5})$/.exec(val)]: the capture group when [val] is the
    flag followed by four or five decimal digits and nothing else. *)
Definition portMatch (val : string) : option string :=
  match strip_prefix "--server=" val with
  | Some digits =>
      if forallb is_digit (list_ascii_of_string digits)
         && ((String.length digits =? 4)%nat || (String.length digits =? 5)%nat)
      then Some digits else None
  | None => None
  end.

(** [parseInt(digits, 10)] on a string of decimal digits. *)
Fixpoint parseInt_from (acc : Z) (digits : string) : Z :=
  match digits with
  | EmptyString => acc
  | String c t => parseInt_from (10 * acc + (Z.of_N (N_of_ascii c) - 48)) t
  end.

Definition parseInt (digits : string) : Z := parseInt_from 0 digits.

(** The local [port] of [run] after the loop over [process.argv.slice(2)]:
    every argument that matches assigns it. *)
Definition run_port (argv : list string) : Z :=
  fold_left
    (fun port val =>
       match portMatch val with
       | Some digits => parseInt digits
       | None => port
       end)
    (skipn 2 argv) 0.

(** What [run] starts: a server on a port, which gives every accepted
    connection a session of its own, or one session on the standard
    streams; or nothing, when [listen] refuses the port. *)
Inductive launch : Type :=
| Server (port : Z) (session : DebugSession)
| Stdio (session : DebugSession)
| RangeError (port : Z).

(** [listen(port)] of the runtime's [net] module throws a [RangeError]
    unless the port is below 65536. *)
Definition run (argv : list string) : launch :=
  let port := run_port argv in
  if 0 <? port then
    if port <? 65536 then
      Server port (setRunAsServer true (DebugSession_new (Some false) (Some true)))
    else RangeError port
  else
    Stdio (DebugSession_new (Some false) None).

(** The transport hands the requests to the dispatcher one after the
    other; the session each dispatch leaves is the one the next starts
    from. *)
Definition dispatchRequests (methods : Methods.t)
    (TypeError_message TypeError_stack : string -> string)
    (requests : list Request.t) (this : DebugSession) : DebugSession :=
  fold_left
    (fun this request =>
       outcome_session
         (dispatchRequest methods TypeError_message TypeError_stack request this))
    requests this.

(** ** The value objects *)

Module Thread.
Record t : Type := mk {
  id : Z;
  name : string }.
End Thread.

Section Values.

(** The string a number turns into when it is appended to a string. *)
Variable Number_toString : Z -> string.

(** [new Thread(id, name)]; [name] is [None] for [undefined] or [null]. *)
Definition Thread_new (id : Z) (name : option string) : Thread.t :=
  match name with
  | Some n =>
      if negb (String.eqb n EmptyString) then Thread.mk id n
      else Thread.mk id ("Thread #" ++ Number_toString id)
  | None => Thread.mk id ("Thread #" ++ Number_toString id)
  end.

End Values.

Module Source.
Record t : Type := mk {
  name : string;
  path : string;
  sourceReference : Z;
  origin : option string }.
End Source.

(** [new Source(name, path, id, origin)]; the adapter data, of any type, is
    left out. *)
Definition Source_new (name path : string) (id : option Z)
    (origin : option string) : Source.t :=
  Source.mk name path (default 0 id)
    (match origin with
     | Some o => if negb (String.eqb o EmptyString) then Some o else None
     | None => None
     end).

Module StoppedEvent.
Record t : Type := mk {
  event : string;
  reason : string;
  threadId : Z;
  text : option string }.
End StoppedEvent.

(** Modelled from the spec: the base class [Event] lives in [messages.ts],
    which is not among the sources; it keeps the event name.
    [new StoppedEvent(reason, threadId, exception_text)]. *)
Definition StoppedEvent_new (reason : string) (threadId : Z)
    (exception_text : option string) : StoppedEvent.t :=
  StoppedEvent.mk "stopped" reason threadId
    (match exception_text with
     | Some t => if negb (String.eqb t EmptyString) then Some t else None
     | None => None
     end).

(** ** More vocabulary *)

(** A text holds an opening brace directly followed by an underscore. *)
Fixpoint has_open_underscore (s : string) : bool :=
  match s with
  | EmptyString => false
  | String c t =>
      Ascii.eqb c open_brace && starts_with_underscore t
      || has_open_underscore t
  end.

(** The path [path2uri] encodes: backslashes turned into slashes, and a
    slash in front unless there is one. *)
Definition pathName (str : string) : string :=
  let pathName := replace_backslashes str in
  match pathName with
  | String c _ => if Ascii.eqb c slash then pathName else String slash pathName
  | EmptyString => String slash pathName
  end.

(** A character that [encodeURI] copies or the percent sign it writes,
    without the three the URL parser treats specially. *)
Definition plain_or_percent (c : ascii) : bool :=
  path_plain c || Ascii.eqb c "%".

(** * Properties *)

(** ** The formatter *)

Lemma String_replace_step replacer s :
  String_replace replacer s =
  match s with
  | EmptyString => Normal EmptyString
  | String c t =>
      match _formatPIIRegexp_exec s with
      | Some (paramName, rest) =>
          let! r := replacer (token paramName) paramName in
          let! out := String_replace replacer rest in
          Normal (r ++ out)
      | None =>
          let! out := String_replace replacer t in
          Normal (String c out)
      end
  end.
Proof.
  apply (String_replace_elim
    (fun replacer s res =>
       res = match s with
             | EmptyString => Normal EmptyString
             | String c t =>
                 match _formatPIIRegexp_exec s with
                 | Some (paramName, rest) =>
                     let! r := replacer (token paramName) paramName in
                     let! out := String_replace replacer rest in
                     Normal (r ++ out)
                 | None =>
                     let! out := String_replace replacer t in
                     Normal (String c out)
                 end
             end)).
  - reflexivity.
  - intros f c t paramName rest Heq _ _. rewrite Heq. reflexivity.
  - intros f c t Heq _ _. rewrite Heq. reflexivity.
Qed.

Lemma append_cons c s t : String c s ++ t = String c (s ++ t).
Proof. reflexivity. Qed.

Lemma append_nil s : EmptyString ++ s = s.
Proof. reflexivity. Qed.

Lemma span_name_no_close s :
  has_close_brace s = false -> span_name s = (s, EmptyString).
Proof.
  induction s as [|c t IH]; simpl; [reflexivity|].
  destruct (Ascii.eqb c close_brace); simpl; [discriminate|].
  intros H. rewrite (IH H). reflexivity.
Qed.

Lemma span_name_token name rest :
  has_close_brace name = false ->
  span_name (name ++ String close_brace rest) = (name, String close_brace rest).
Proof.
  induction name as [|c t IH].
  - intros _. reflexivity.
  - rewrite append_cons. simpl.
    destruct (Ascii.eqb c close_brace); simpl; [discriminate|].
    intros H. rewrite (IH H). reflexivity.
Qed.

Lemma append_assoc_token name rest :
  token name ++ rest = String open_brace (name ++ String close_brace rest).
Proof.
  unfold token. rewrite append_cons. f_equal.
  induction name as [|c t IH]; [reflexivity|].
  rewrite !append_cons. f_equal. exact IH.
Qed.

Lemma exec_token name rest :
  name <> EmptyString -> has_close_brace name = false ->
  _formatPIIRegexp_exec (token name ++ rest) = Some (name, rest).
Proof.
  intros Hne Hc. rewrite append_assoc_token. unfold _formatPIIRegexp_exec.
  rewrite Ascii.eqb_refl, (span_name_token _ _ Hc).
  destruct name as [|c t]; [congruence|]. reflexivity.
Qed.

Lemma exec_literal c t :
  c <> open_brace -> _formatPIIRegexp_exec (String c t) = None.
Proof.
  intros H. unfold _formatPIIRegexp_exec.
  destruct (Ascii.eqb_spec c open_brace); [contradiction|reflexivity].
Qed.

Lemma exec_unmatched s :
  has_close_brace s = false -> _formatPIIRegexp_exec s = None.
Proof.
  destruct s as [|c t]; [reflexivity|]. simpl.
  destruct (Ascii.eqb c close_brace) eqn:Ec; simpl; [discriminate|]. intros H.
  destruct (Ascii.eqb c open_brace); [|reflexivity].
  rewrite (span_name_no_close _ H). now destruct t.
Qed.

Lemma exec_empty_braces rest :
  _formatPIIRegexp_exec (String open_brace (String close_brace rest)) = None.
Proof. reflexivity. Qed.

Lemma exec_name_nonempty s name rest :
  _formatPIIRegexp_exec s = Some (name, rest) -> name <> EmptyString.
Proof.
  destruct s as [|c t]; [discriminate|]. unfold _formatPIIRegexp_exec.
  destruct (Ascii.eqb c open_brace); [|discriminate].
  destruct (span_name t) as [[|c1 n] [|c2 r]]; try discriminate.
  destruct (Ascii.eqb c2 close_brace); [|discriminate].
  intros [= <- _]. discriminate.
Qed.

Lemma span_name_length s n r :
  span_name s = (n, r) ->
  String.length s = (String.length n + String.length r)%nat.
Proof.
  revert n r; induction s as [|c t IH]; simpl; intros n r.
  - intros [= <- <-]. reflexivity.
  - destruct (Ascii.eqb c close_brace).
    + intros [= <- <-]. reflexivity.
    + destruct (span_name t) as [n' r'] eqn:E. intros [= <- <-]. simpl.
      rewrite (IH _ _ eq_refl). reflexivity.
Qed.

Lemma _formatPIIRegexp_exec_length s n r :
  _formatPIIRegexp_exec s = Some (n, r) ->
  (String.length r < String.length s)%nat.
Proof.
  destruct s as [|c t]; [discriminate|]. unfold _formatPIIRegexp_exec.
  destruct (Ascii.eqb c open_brace); [|discriminate].
  destruct (span_name t) as [n' r'] eqn:E.
  destruct n' as [|c' n']; [discriminate|].
  destruct r' as [|c'' r']; [discriminate|].
  apply span_name_length in E.
  destruct (Ascii.eqb c'' close_brace); [|discriminate].
  intros [= <- <-]. simpl in *. lia.
Qed.

(** A text without closing brace has no placeholder and passes through. *)
Lemma String_replace_no_close replacer s :
  has_close_brace s = false -> String_replace replacer s = Normal s.
Proof.
  induction s as [|c t IH]; intros H; rewrite String_replace_step; [reflexivity|].
  rewrite (exec_unmatched _ H). simpl in H.
  apply orb_false_elim in H as [_ H]. rewrite (IH H). reflexivity.
Qed.

Lemma String_replace_total replacer s :
  (forall n, n <> EmptyString -> exists r, replacer (token n) n = Normal r) ->
  exists out, String_replace replacer s = Normal out.
Proof.
  intros Hr. remember (String.length s) as k eqn:Hk.
  revert s Hk. induction k as [k IH] using lt_wf_ind. intros s ->.
  rewrite String_replace_step. destruct s as [|c t]; [eauto|].
  destruct (_formatPIIRegexp_exec (String c t)) as [[name rest]|] eqn:E.
  - destruct (Hr name (exec_name_nonempty _ _ _ E)) as [r ->].
    destruct (IH _ (_formatPIIRegexp_exec_length _ _ _ E) rest eq_refl) as [out ->].
    simpl. eauto.
  - destruct (IH (String.length t) (Nat.lt_succ_diag_r _) t eq_refl) as [out ->].
    simpl. eauto.
Qed.

Lemma formatPII_replacer_value redact args name :
  args !! "hasOwnProperty" = None -> name <> EmptyString ->
  formatPII_replacer redact (Some args) (token name) name
  = Normal (placeholder_value redact args name).
Proof.
  intros Hown Hne. unfold formatPII_replacer, placeholder_value, truthy_get, hasOwnProperty.
  rewrite Hown.
  assert (Hlen : (0 <? String.length name)%nat = true) by (destruct name; [congruence|reflexivity]).
  rewrite Hlen, andb_true_r.
  destruct redact, (starts_with_underscore name); simpl;
    destruct (args !! name) as [v|] eqn:Ev; simpl; try reflexivity;
    try (destruct (String.eqb v EmptyString); simpl; try reflexivity;
         rewrite bool_decide_eq_true_2 by eauto; reflexivity);
    destruct (inherited name); simpl; try reflexivity;
    rewrite bool_decide_eq_false_2 by (intros [? ?]; discriminate); reflexivity.
Qed.

Lemma formatPII_total redact args format :
  args !! "hasOwnProperty" = None ->
  exists out, formatPII (Some format) redact (Some args) = Normal out.
Proof.
  intros Hown. apply String_replace_total. intros n Hn.
  rewrite (formatPII_replacer_value _ _ _ Hown Hn). eauto.
Qed.

Lemma formatPII_token redact args name rest out :
  args !! "hasOwnProperty" = None ->
  name <> EmptyString -> has_close_brace name = false ->
  formatPII (Some rest) redact (Some args) = Normal out ->
  formatPII (Some (token name ++ rest)) redact (Some args)
  = Normal (placeholder_value redact args name ++ out).
Proof.
  unfold formatPII. intros Hown Hne Hc Hrest.
  rewrite String_replace_step, (exec_token _ rest Hne Hc).
  rewrite append_assoc_token at 1.
  rewrite (formatPII_replacer_value _ _ _ Hown Hne), Hrest. reflexivity.
Qed.

Lemma formatPII_literal redact args c rest out :
  c <> open_brace ->
  formatPII (Some rest) redact args = Normal out ->
  formatPII (Some (String c rest)) redact args = Normal (String c out).
Proof.
  unfold formatPII. intros Hc Hrest.
  rewrite String_replace_step, (exec_literal _ _ Hc), Hrest. reflexivity.
Qed.

Lemma formatPII_empty_braces redact args rest out :
  formatPII (Some rest) redact args = Normal out ->
  formatPII (Some (String open_brace (String close_brace rest))) redact args
  = Normal (String open_brace (String close_brace out)).
Proof.
  unfold formatPII. intros Hrest.
  rewrite String_replace_step, exec_empty_braces.
  rewrite String_replace_step, exec_literal by discriminate.
  rewrite Hrest. reflexivity.
Qed.

Lemma formatPII_no_close redact args s :
  has_close_brace s = false -> formatPII (Some s) redact args = Normal s.
Proof. apply String_replace_no_close. Qed.

(** C3 (as amended).  For every template, every redact flag and every
    variables mapping without an own property [hasOwnProperty], [formatPII]
    returns and does not throw; scanning from the left it replaces each
    placeholder (an opening brace, a non-empty name without closing brace, a
    closing brace) by the variable's value exactly when the mapping has a
    non-empty value for the name and (redact is false or the name starts with
    an underscore), and otherwise leaves the placeholder as it is; every other
    character, an empty pair of braces and a text without closing brace (an
    unmatched opening brace) pass through literally.  The three renderings of
    the specification are as stated. *)
Theorem formatPII_placeholders (redact : bool) (args : gmap string string) :
  args !! "hasOwnProperty" = None ->
  (forall format, exists out,
      formatPII (Some format) redact (Some args) = Normal out)
  /\ (forall name rest out,
        name <> EmptyString -> has_close_brace name = false ->
        formatPII (Some rest) redact (Some args) = Normal out ->
        formatPII (Some (token name ++ rest)) redact (Some args)
        = Normal (placeholder_value redact args name ++ out))
  /\ (forall c rest out,
        c <> open_brace ->
        formatPII (Some rest) redact (Some args) = Normal out ->
        formatPII (Some (String c rest)) redact (Some args)
        = Normal (String c out))
  /\ (forall rest out,
        formatPII (Some rest) redact (Some args) = Normal out ->
        formatPII (Some (String open_brace (String close_brace rest)))
          redact (Some args)
        = Normal (String open_brace (String close_brace out)))
  /\ (forall s,
        has_close_brace s = false ->
        formatPII (Some s) redact (Some args) = Normal s)
  /\ formatPII (Some "{_stack}") true
       (Some (<["_stack" := "trace"]> (<["user" := "bob"]> ∅))) = Normal "trace"
  /\ formatPII (Some "{user}") true (Some (<["user" := "bob"]> ∅))
     = Normal "{user}"
  /\ formatPII (Some "{user}") false (Some (<["user" := "bob"]> ∅))
     = Normal "bob".
Proof.
  intros Hown.
  split; [intros format; now apply formatPII_total|].
  split; [intros name rest out; now apply formatPII_token|].
  split; [intros c rest out; apply formatPII_literal|].
  split; [intros rest out; apply formatPII_empty_braces|].
  split; [intros s; apply formatPII_no_close|].
  split; [vm_compute; reflexivity|].
  split; vm_compute; reflexivity.
Qed.

(** The mapping [{user: "bob"}] has no own [hasOwnProperty]; the template
    ["Hi {user}"] is rendered from its parts. *)
Lemma formatPII_placeholders_witness :
  (<["user" := "bob"]> ∅ : gmap string string) !! "hasOwnProperty" = None
  /\ formatPII (Some ("H" ++ "i" ++ " " ++ token "user" ++ EmptyString)) false
       (Some (<["user" := "bob"]> ∅))
     = Normal "Hi bob".
Proof.
  assert (H : (<["user" := "bob"]> ∅ : gmap string string) !! "hasOwnProperty" = None)
    by (vm_compute; reflexivity).
  split; [exact H|].
  destruct (formatPII_placeholders false (<["user" := "bob"]> ∅) H)
    as (_ & Htok & Hlit & _ & Hplain & _).
  change ("H" ++ "i" ++ " " ++ token "user" ++ EmptyString)
    with (String "H" (String "i" (String " " (token "user" ++ EmptyString)))).
  apply (Hlit "H"%char _ "i bob"); [discriminate|].
  apply (Hlit "i"%char _ " bob"); [discriminate|].
  apply (Hlit " "%char _ "bob"); [discriminate|].
  apply (Htok "user" EmptyString EmptyString); [discriminate|reflexivity|].
  apply Hplain. reflexivity.
Defined.

(** C3, as stated, fails on an empty value: the key [user] exists and
    nothing is redacted, yet the placeholder is not replaced by the (empty)
    value. *)
Lemma formatPII_empty_value_kept :
  (<["user" := EmptyString]> ∅ : gmap string string) !! "user" = Some EmptyString
  /\ formatPII (Some "{user}") false (Some (<["user" := EmptyString]> ∅))
     = Normal "{user}"
  /\ formatPII (Some "{user}") false (Some (<["user" := EmptyString]> ∅))
     <> Normal EmptyString.
Proof.
  split; [vm_compute; reflexivity|].
  split; [vm_compute; reflexivity|].
  vm_compute. discriminate.
Qed.

(** ** Error responses *)

Lemma sendErrorResponse_Normal response codeOrMessage format variables dest this text :
  let msg := sendErrorResponse_msg codeOrMessage format variables dest in
  formatPII (Message.format msg) true (Message.variables msg) = Normal text ->
  sendErrorResponse response codeOrMessage format variables dest this
  = Returned (sendResponse (error_response response msg text) this)
      (error_response response msg text).
Proof.
  intros msg H. unfold sendErrorResponse. fold msg. rewrite H. reflexivity.
Qed.

(** C1 (as amended).  Whenever the redacting formatter returns for the
    template and variables of the error (it throws when the template is
    missing, or when a placeholder that may be shown meets a missing
    mapping), [sendErrorResponse] hands one response to the transport: it has
    [success] false, its [message] is the rendering of the template with
    redaction switched on (only placeholders whose name starts with an
    underscore are replaced), and its [body.error] is the full error message,
    the one built from the numeric code or the one passed in, unmodified. *)
Theorem sendErrorResponse_sends_redacted
    (response : Response.t) (codeOrMessage : Z + Message.t)
    (format : option string) (variables : option (gmap string string))
    (dest : option Z) (this : DebugSession) (text : string) :
  let msg := sendErrorResponse_msg codeOrMessage format variables dest in
  formatPII (Message.format msg) true (Message.variables msg) = Normal text ->
  exists r,
    sendErrorResponse response codeOrMessage format variables dest this
    = Returned (sendResponse r this) r
    /\ sent (sendResponse r this) = (sent this ++ [r])%list
    /\ Response.success r = false
    /\ Response.message r = Some text
    /\ body_error r = Some msg
    /\ Response.request_seq r = Response.request_seq response
    /\ Response.command r = Response.command response
    /\ match codeOrMessage with
       | inl code => Message.id msg = code /\ Message.format msg = format
                     /\ Message.variables msg = variables
       | inr message => msg = message
       end.
Proof.
  intros msg H. exists (error_response response msg text).
  split; [now apply sendErrorResponse_Normal|].
  repeat (split; [reflexivity|]).
  subst msg. destruct codeOrMessage; simpl; auto.
Qed.

(** A prebuilt error with the template ["{_id} for {user}"]. *)
Lemma sendErrorResponse_sends_redacted_witness :
  let msg := Message.mk 3000 (Some "{_id} for {user}")
               (Some (<["_id" := "E7"]> (<["user" := "bob"]> ∅))) (Some true) None in
  formatPII (Message.format msg) true (Message.variables msg)
  = Normal "E7 for {user}"
  /\ exists r,
       sendErrorResponse (Response_new (Request.mk 4 "launch" None)) (inr msg)
         None None None (DebugSession_new None None)
       = Returned (sendResponse r (DebugSession_new None None)) r
       /\ Response.message r = Some "E7 for {user}"
       /\ body_error r = Some msg.
Proof.
  intros msg.
  assert (H : formatPII (Message.format msg) true (Message.variables msg)
              = Normal "E7 for {user}") by (vm_compute; reflexivity).
  split; [exact H|].
  destruct (sendErrorResponse_sends_redacted
              (Response_new (Request.mk 4 "launch" None)) (inr msg) None None
              None (DebugSession_new None None) "E7 for {user}" H)
    as (r & Hsend & _ & _ & Hmsg & Herr & _).
  exists r. auto.
Defined.

(** C1, as stated, fails: the message of the response is rendered with
    redaction, so a placeholder without leading underscore stays, while the
    rendering without redaction replaces it. *)
Lemma sendErrorResponse_message_redacted :
  let variables : option (gmap string string) := Some (<["user" := "bob"]> ∅) in
  let o := sendErrorResponse (Response_new (Request.mk 4 "launch" None))
             (inl 3000) (Some "Hello {user}") variables None
             (DebugSession_new None None) in
  formatPII (Some "Hello {user}") false variables = Normal "Hello bob"
  /\ sent (outcome_session o) = [outcome_response o]
  /\ Response.message (outcome_response o) = Some "Hello {user}"
  /\ Response.message (outcome_response o) <> Some "Hello bob".
Proof.
  cbv zeta.
  split; [vm_compute; reflexivity|].
  split; [vm_compute; reflexivity|].
  split; [vm_compute; reflexivity|].
  vm_compute. discriminate.
Qed.

Lemma land_pow2_testbit dest k :
  0 <= k -> (Z.land dest (2 ^ k) =? 0) = negb (Z.testbit dest k).
Proof.
  intros Hk.
  assert (H : Z.land dest (2 ^ k) = if Z.testbit dest k then 2 ^ k else 0).
  { apply Z.bits_inj'. intros n Hn. rewrite Z.land_spec.
    rewrite Z.pow2_bits_eqb by lia.
    destruct (Z.eqb_spec k n) as [<-|Hne].
    - rewrite Bool.andb_true_r. destruct (Z.testbit dest k) eqn:E.
      + rewrite Z.pow2_bits_eqb by lia. symmetry. apply Z.eqb_refl.
      + now rewrite Z.bits_0.
    - rewrite Bool.andb_false_r. destruct (Z.testbit dest k).
      + rewrite Z.pow2_bits_eqb by lia. symmetry. now apply Z.eqb_neq.
      + now rewrite Z.bits_0. }
  rewrite H. destruct (Z.testbit dest k); [|reflexivity].
  apply Z.eqb_neq. apply Z.pow_nonzero; lia.
Qed.

(** C10.  With a numeric code and no destination argument the destination
    is [User]: the message has [showUser] true and [sendTelemetry] unset.
    For any destination, [showUser] is set exactly when the bit of [User] is
    in the mask and [sendTelemetry] exactly when the bit of [Telemetry] is;
    this message is the one attached to the response that is sent. *)
Theorem sendErrorResponse_destination
    (code : Z) (format : option string) (variables : option (gmap string string)) :
  (let msg := sendErrorResponse_msg (inl code) format variables None in
   Message.showUser msg = Some true /\ Message.sendTelemetry msg = None)
  /\ (forall dest : Z,
        let msg := sendErrorResponse_msg (inl code) format variables (Some dest) in
        Message.showUser msg = (if Z.testbit dest 0 then Some true else None)
        /\ Message.sendTelemetry msg = (if Z.testbit dest 1 then Some true else None))
  /\ (forall response dest this,
        match sendErrorResponse response (inl code) format variables dest this with
        | Returned this' r =>
            body_error r = Some (sendErrorResponse_msg (inl code) format variables dest)
            /\ sent this' = (sent this ++ [r])%list
        | Threw _ this' _ => sent this' = sent this
        end).
Proof.
  split; [split; reflexivity|].
  split.
  - intros dest. cbv zeta.
    unfold sendErrorResponse_msg, default, ErrorDestination.User,
      ErrorDestination.Telemetry.
    cbn [Message.showUser Message.sendTelemetry].
    pose proof (land_pow2_testbit dest 0 ltac:(lia)) as H0.
    pose proof (land_pow2_testbit dest 1 ltac:(lia)) as H1.
    change (2 ^ 0) with 1 in H0. change (2 ^ 1) with 2 in H1.
    unfold id. rewrite H0, H1. clear H0 H1.
    generalize (Z.testbit dest 0), (Z.testbit dest 1).
    intros [] []; split; reflexivity.
  - intros response dest this. unfold sendErrorResponse.
    destruct (formatPII _ _ _); simpl; auto.
Qed.

(** ** Line and column translation *)

Lemma Number_round_exact x :
  - 2 ^ 53 <= x <= 2 ^ 53 -> Number_round x = x.
Proof.
  intros Hx.
  destruct (Z.eq_dec x (2 ^ 53)) as [->|Hhi]; [vm_compute; reflexivity|].
  destruct (Z.eq_dec x (- 2 ^ 53)) as [->|Hlo]; [vm_compute; reflexivity|].
  assert (Hlog : Z.log2 (Z.abs x) - 52 <= 0).
  { destruct (Z.eq_dec (Z.abs x) 0) as [->|Hz]; [vm_compute; discriminate|].
    assert (Z.log2 (Z.abs x) < 53); [|lia].
    apply Z.log2_lt_pow2; lia. }
  unfold Number_round. rewrite Z.max_l by lia.
  change (2 ^ 0) with 1. rewrite Z.div_1_r, Z.mul_1_r, Z.mod_1_r. reflexivity.
Qed.

(** C7 (as amended).  For every integer n with |n| < 2^53 and the
    conventions held fixed, translating to the client and back, or to the
    debugger and back, returns n, for lines and for columns.  On these
    numbers each translation adds the difference of the two bases: nothing
    when both sides agree, exactly one up or down when they disagree, with no
    clamping, so that line 0 of a 1-based client becomes line -1 for a 0-based
    debugger and twice that step gives -2. *)
Theorem convert_round_trip (this : DebugSession) (n : Z) :
  - 2 ^ 53 < n < 2 ^ 53 ->
  convertClientLineToDebugger this (convertDebuggerLineToClient this n) = n
  /\ convertDebuggerLineToClient this (convertClientLineToDebugger this n) = n
  /\ convertClientColumnToDebugger this (convertDebuggerColumnToClient this n) = n
  /\ convertDebuggerColumnToClient this (convertClientColumnToDebugger this n) = n
  /\ convertClientLineToDebugger this n
     = n - base (_clientLinesStartAt1 this) + base (_debuggerLinesStartAt1 this)
  /\ convertDebuggerLineToClient this n
     = n - base (_debuggerLinesStartAt1 this) + base (_clientLinesStartAt1 this)
  /\ convertClientColumnToDebugger this n
     = n - base (_clientColumnsStartAt1 this) + base (_debuggerColumnsStartAt1 this)
  /\ convertDebuggerColumnToClient this n
     = n - base (_debuggerColumnsStartAt1 this) + base (_clientColumnsStartAt1 this)
  /\ convertClientLineToDebugger (DebugSession_new None None) 0 = -1
  /\ convertClientColumnToDebugger (DebugSession_new None None)
       (convertClientColumnToDebugger (DebugSession_new None None) 0) = -2.
Proof.
  intros Hn.
  assert (Hup : Number_add n 1 = n + 1)
    by (apply Number_round_exact; lia).
  assert (Hdown : Number_sub n 1 = n - 1)
    by (apply Number_round_exact; lia).
  assert (Hupdown : Number_sub (n + 1) 1 = n)
    by (unfold Number_sub; rewrite Number_round_exact by lia; lia).
  assert (Hdownup : Number_add (n - 1) 1 = n)
    by (unfold Number_add; rewrite Number_round_exact by lia; lia).
  unfold convertClientLineToDebugger, convertDebuggerLineToClient,
    convertClientColumnToDebugger, convertDebuggerColumnToClient, base.
  destruct (_debuggerLinesStartAt1 this), (_clientLinesStartAt1 this),
    (_debuggerColumnsStartAt1 this), (_clientColumnsStartAt1 this);
    rewrite ?Hup, ?Hdown, ?Hupdown, ?Hdownup;
    repeat (split; [lia|]); split; vm_compute; reflexivity.
Qed.

(** Line 41 on a session whose debugger counts from 0. *)
Lemma convert_round_trip_witness :
  - 2 ^ 53 < 41 < 2 ^ 53
  /\ convertDebuggerLineToClient (DebugSession_new None None) 41 = 42
  /\ convertClientLineToDebugger (DebugSession_new None None)
       (convertDebuggerLineToClient (DebugSession_new None None) 41) = 41.
Proof.
  assert (H : - 2 ^ 53 < 41 < 2 ^ 53) by lia.
  split; [exact H|].
  destruct (convert_round_trip (DebugSession_new None None) 41 H)
    as (H1 & _ & _ & _ & _ & H6 & _).
  split; [exact H6|exact H1].
Defined.

(** C7, as stated, fails at 2^53: a 1-based client adds one to the line of
    a 0-based debugger, the sum 2^53 + 1 is no double and is rounded to 2^53,
    and the way back gives 2^53 - 1. *)
Lemma convert_round_trip_2_53 :
  let this := DebugSession_new None None in
  convertDebuggerLineToClient this (2 ^ 53) = 2 ^ 53
  /\ convertClientLineToDebugger this (convertDebuggerLineToClient this (2 ^ 53))
     = 2 ^ 53 - 1
  /\ convertClientLineToDebugger this (convertDebuggerLineToClient this (2 ^ 53))
     <> 2 ^ 53.
Proof.
  cbv zeta. split; [vm_compute; reflexivity|].
  split; [vm_compute; reflexivity|]. vm_compute. discriminate.
Qed.

(** ** The dispatcher *)

Lemma sendErrorResponse_plain response code text variables dest this :
  has_close_brace text = false ->
  let msg := sendErrorResponse_msg (inl code) (Some text) variables dest in
  sendErrorResponse response (inl code) (Some text) variables dest this
  = Returned (sendResponse (error_response response msg text) this)
      (error_response response msg text).
Proof.
  intros H msg. apply sendErrorResponse_Normal.
  apply (formatPII_no_close true variables text H).
Qed.

(** The variables of the error the dispatcher builds from an exception. *)
Lemma exception_variables_lookup (m st : option string) :
  exception_variables m st !! "hasOwnProperty" = None
  /\ exception_variables m st !! "_exception" = m
  /\ exception_variables m st !! "_stack" = st.
Proof.
  unfold exception_variables.
  destruct m as [m|], st as [st|]; cbv zeta; (split; [|split]);
    rewrite ?lookup_insert_eq, ?lookup_insert_ne, ?lookup_empty by discriminate;
    try reflexivity;
    rewrite ?lookup_insert_eq, ?lookup_insert_ne, ?lookup_empty by discriminate;
    reflexivity.
Qed.

Lemma formatPII_single_token redact args name :
  args !! "hasOwnProperty" = None ->
  name <> EmptyString -> has_close_brace name = false ->
  formatPII (Some (token name)) redact (Some args)
  = Normal (placeholder_value redact args name).
Proof.
  intros Hown Hne Hc.
  pose proof (formatPII_token redact args name EmptyString EmptyString
                Hown Hne Hc eq_refl) as H.
  replace (token name ++ EmptyString) with (token name) in H.
  - rewrite H. f_equal. generalize (placeholder_value redact args name).
    induction s as [|c s IH]; [reflexivity|]. rewrite append_cons. now f_equal.
  - generalize (token name).
    induction s as [|c s IH]; [reflexivity|]. rewrite append_cons. now f_equal.
Qed.

Lemma formatPII_exception_variable redact (m st : option string) name :
  starts_with_underscore name = true -> has_close_brace name = false ->
  formatPII (Some (token name)) redact (Some (exception_variables m st))
  = Normal (shown name (exception_variables m st !! name)).
Proof.
  intros Hu Hc.
  destruct (exception_variables_lookup m st) as (Hown & _ & _).
  rewrite (formatPII_single_token redact _ name Hown); [|now destruct name|exact Hc].
  unfold placeholder_value, shown.
  destruct (exception_variables m st !! name) as [v|]; [|reflexivity].
  rewrite Hu, Bool.orb_true_r, Bool.andb_true_r.
  now destruct (String.eqb v EmptyString).
Qed.

Lemma sendErrorResponse_exception response (m st : option string) this :
  sendErrorResponse response (inl 1104) (Some "{_stack}")
    (Some (exception_variables m st))
    (Some ErrorDestination.Telemetry) this
  = Returned (sendResponse (exception_response response m st) this)
      (exception_response response m st).
Proof.
  apply (sendErrorResponse_Normal response (inl 1104) (Some "{_stack}")
           (Some (exception_variables m st))
           (Some ErrorDestination.Telemetry) this).
  cbv zeta. unfold sendErrorResponse_msg.
  cbn [Message.format Message.variables].
  destruct (exception_variables_lookup m st) as (_ & _ & Hst).
  etransitivity;
    [exact (formatPII_exception_variable true m st "_stack" eq_refl eq_refl)|].
  now rewrite Hst.
Qed.

(** What the dispatcher reads of a thrown value that is not [null]. *)
Lemma dispatchRequest_Threw methods tm ts request this e this1 r1 :
  dispatchRequest_try methods request (Response_new request) this = Threw e this1 r1 ->
  dispatchRequest methods tm ts request this
  = match e with
    | TypeError what =>
        Returned
          (sendResponse
             (exception_response r1 (Some (tm what)) (Some (ts what))) this1)
          (exception_response r1 (Some (tm what)) (Some (ts what)))
    | ThrownNull =>
        Threw (TypeError "Cannot read property 'message' of null") this1 r1
    | Thrown message stack =>
        Returned (sendResponse (exception_response r1 message stack) this1)
          (exception_response r1 message stack)
    end.
Proof.
  intros H. unfold dispatchRequest. rewrite H.
  destruct e as [what| |message stack]; cbn [e_message e_stack];
    [apply sendErrorResponse_exception|reflexivity|apply sendErrorResponse_exception].
Qed.

Lemma dispatchRequest_try_custom methods request response this :
  recognized (Request.command request) = false ->
  dispatchRequest_try methods request response this
  = Methods.customRequest methods (Request.command request) response
      (Request.arguments request) this.
Proof.
  unfold recognized, recognized_commands, dispatchRequest_try. cbn [existsb].
  intros H.
  repeat (apply Bool.orb_false_elim in H as [-> H]).
  reflexivity.
Qed.

(** C6.  A request whose command is outside the recognized set, dispatched
    on a session with the default [customRequest], hands exactly one
    response to the transport: [success] is false and the error has id 1014,
    the text ["unrecognized request"], and [sendTelemetry] set ([showUser] is
    not). *)
Theorem dispatchRequest_unrecognized
    (TypeError_message TypeError_stack : string -> string)
    (request : Request.t) (this : DebugSession) :
  recognized (Request.command request) = false ->
  let msg := Message.mk 1014 (Some "unrecognized request") None None (Some true) in
  let r := error_response (Response_new request) msg "unrecognized request" in
  dispatchRequest DebugSession_methods TypeError_message TypeError_stack
    request this
  = Returned (sendResponse r this) r
  /\ sent (sendResponse r this) = (sent this ++ [r])%list
  /\ Response.success r = false
  /\ Response.request_seq r = Request.seq request
  /\ Response.message r = Some "unrecognized request"
  /\ body_error r = Some msg
  /\ Message.id msg = 1014
  /\ Message.sendTelemetry msg = Some true
  /\ Message.showUser msg = None.
Proof.
  intros H msg r. split; [|repeat (split; [reflexivity|]); reflexivity].
  unfold dispatchRequest. rewrite (dispatchRequest_try_custom _ _ _ _ H).
  cbn [Methods.customRequest DebugSession_methods]. unfold customRequest.
  rewrite sendErrorResponse_plain by reflexivity. reflexivity.
Qed.

Lemma dispatchRequest_unrecognized_witness :
  recognized "restart" = false
  /\ exists r,
       dispatchRequest DebugSession_methods (fun what => what) (fun what => what)
         (Request.mk 12 "restart" None) (DebugSession_new None None)
       = Returned (sendResponse r (DebugSession_new None None)) r
       /\ Response.success r = false
       /\ (body_error r ≫= fun msg => Some (Message.id msg)) = Some 1014.
Proof.
  assert (H : recognized (Request.command (Request.mk 12 "restart" None)) = false)
    by reflexivity.
  split; [exact H|].
  destruct (dispatchRequest_unrecognized (fun what => what) (fun what => what)
              (Request.mk 12 "restart" None) (DebugSession_new None None) H)
    as (Hd & _ & Hs & _ & _ & He & _).
  eexists. split; [exact Hd|]. split; [exact Hs|]. rewrite He. reflexivity.
Defined.

Lemma sent_sendResponse r this : sent (sendResponse r this) = (sent this ++ [r])%list.
Proof. reflexivity. Qed.

Lemma sent_shutdown this : sent (shutdown this) = sent this.
Proof. unfold shutdown. now destruct (_isServer this). Qed.

Lemma sent_client_flags_from args this : sent (client_flags_from args this) = sent this.
Proof.
  unfold client_flags_from.
  now destruct (InitializeRequestArguments.linesStartAt1 args),
    (InitializeRequestArguments.columnsStartAt1 args).
Qed.

Lemma dispatchRequest_try_initialize methods seq args response this :
  dispatchRequest_try methods (Request.mk seq "initialize" (Some args)) response this
  = if bool_decide (InitializeRequestArguments.pathFormat args = Some "path")
    then Methods.initializeRequest methods
           (Response.set_body Body.empty response) args
           (client_flags_from args this)
    else sendErrorResponse response (inl 2018)
           (Some "debug adapter only supports native paths") None
           (Some ErrorDestination.Telemetry) (client_flags_from args this).
Proof.
  unfold dispatchRequest_try, client_flags_from.
  cbn [Request.command Request.arguments]. rewrite String.eqb_refl.
  now destruct (bool_decide _).
Qed.

(** C4.  Dispatched on a session with the default handlers, every request
    hands exactly one response to the transport, and that response carries the
    sequence number and the command of the request.  Its [success] is true
    exactly for the minimally valid requests of the recognized set, so for
    each of the 21 recognized commands (an [initialize] request asking for
    native paths) the one response is a success. *)
Theorem dispatchRequest_default_one_response
    (TypeError_message TypeError_stack : string -> string)
    (request : Request.t) (this : DebugSession) :
  exists this' r,
    dispatchRequest DebugSession_methods TypeError_message TypeError_stack
      request this
    = Returned this' r
    /\ sent this' = (sent this ++ [r])%list
    /\ Response.request_seq r = Request.seq request
    /\ Response.command r = Request.command request
    /\ Response.success r = minimally_valid request
    /\ forallb (fun command =>
         minimally_valid
           (Request.mk (Request.seq request) command
              (Some (InitializeRequestArguments.mk None None (Some "path")))))
         recognized_commands = true.
Proof.
  destruct request as [seq command arguments].
  destruct (recognized command) eqn:Hrec.
  - unfold recognized, recognized_commands in Hrec. cbn [existsb] in Hrec.
    repeat (apply Bool.orb_prop in Hrec as [Hrec|Hrec];
            [apply String.eqb_eq in Hrec; subst command|]);
      try discriminate Hrec.
    all: try (do 2 eexists; split; [reflexivity|];
              split; [try (cbn [disconnectRequest]; rewrite sent_shutdown);
                      reflexivity|];
              repeat (split; [reflexivity|]); reflexivity).
    (* initialize *)
    destruct arguments as [args|].
    + unfold dispatchRequest. rewrite dispatchRequest_try_initialize.
      unfold minimally_valid. cbn [Request.command Request.arguments].
      change (recognized "initialize") with true.
      change (String.eqb "initialize" "initialize") with true.
      cbn [negb orb andb].
      destruct (bool_decide _).
      * do 2 eexists. split; [reflexivity|].
        split; [cbn [initializeRequest]; rewrite sent_sendResponse, sent_client_flags_from; reflexivity|].
        repeat (split; [reflexivity|]). reflexivity.
      * rewrite sendErrorResponse_plain by reflexivity.
        do 2 eexists. split; [reflexivity|].
        split; [rewrite sent_sendResponse, sent_client_flags_from; reflexivity|].
        repeat (split; [reflexivity|]). reflexivity.
    + erewrite dispatchRequest_Threw by reflexivity. cbv iota.
      do 2 eexists. split; [reflexivity|].
      repeat (split; [reflexivity|]). reflexivity.
  - unfold dispatchRequest.
    rewrite (dispatchRequest_try_custom _ (Request.mk seq command arguments) _ _ Hrec).
    cbn [Methods.customRequest DebugSession_methods Request.command Request.arguments].
    unfold customRequest. rewrite sendErrorResponse_plain by reflexivity.
    unfold minimally_valid. cbn [Request.command]. rewrite Hrec.
    do 2 eexists. split; [reflexivity|].
    repeat (split; [reflexivity|]). reflexivity.
Qed.

Lemma client_flags_from_lines args this :
  _clientLinesStartAt1 (client_flags_from args this)
  = default (_clientLinesStartAt1 this) (InitializeRequestArguments.linesStartAt1 args).
Proof.
  unfold client_flags_from.
  now destruct (InitializeRequestArguments.linesStartAt1 args),
    (InitializeRequestArguments.columnsStartAt1 args).
Qed.

Lemma client_flags_from_columns args this :
  _clientColumnsStartAt1 (client_flags_from args this)
  = default (_clientColumnsStartAt1 this) (InitializeRequestArguments.columnsStartAt1 args).
Proof.
  unfold client_flags_from.
  now destruct (InitializeRequestArguments.linesStartAt1 args),
    (InitializeRequestArguments.columnsStartAt1 args).
Qed.

Lemma client_flags_from_debugger_lines args this :
  _debuggerLinesStartAt1 (client_flags_from args this) = _debuggerLinesStartAt1 this.
Proof.
  unfold client_flags_from.
  now destruct (InitializeRequestArguments.linesStartAt1 args),
    (InitializeRequestArguments.columnsStartAt1 args).
Qed.

Lemma dispatchRequest_default_initialize tm ts seq lines columns this :
  let args := InitializeRequestArguments.mk lines columns (Some "path") in
  exists r,
    dispatchRequest DebugSession_methods tm ts
      (Request.mk seq "initialize" (Some args)) this
    = Returned (sendResponse r (client_flags_from args this)) r.
Proof.
  intros args. unfold dispatchRequest.
  rewrite dispatchRequest_try_initialize. eexists. reflexivity.
Qed.

(** C9.  After an [initialize] request with [pathFormat] ["path"] has been
    dispatched, each client flag holds the boolean the request gave for it and
    keeps its former value when the request gave none; the debugger flags are
    untouched.  So with [linesStartAt1] false and no [columnsStartAt1], on a
    session whose debugger lines start at 1, the client lines start at 0, the
    column flag is as before and [convertDebuggerLineToClient] maps 5 to 4. *)
Theorem initialize_client_conventions
    (TypeError_message TypeError_stack : string -> string) (seq : Z)
    (lines columns : option bool) (this : DebugSession) :
  (let o := dispatchRequest DebugSession_methods TypeError_message TypeError_stack
              (Request.mk seq "initialize"
                 (Some (InitializeRequestArguments.mk lines columns (Some "path"))))
              this in
   _clientLinesStartAt1 (outcome_session o) = default (_clientLinesStartAt1 this) lines
   /\ _clientColumnsStartAt1 (outcome_session o)
      = default (_clientColumnsStartAt1 this) columns
   /\ _debuggerLinesStartAt1 (outcome_session o) = _debuggerLinesStartAt1 this)
  /\ (let o := dispatchRequest DebugSession_methods TypeError_message TypeError_stack
                 (Request.mk seq "initialize"
                    (Some (InitializeRequestArguments.mk (Some false) None (Some "path"))))
                 (setDebuggerLinesStartAt1 true this) in
      _clientLinesStartAt1 (outcome_session o) = false
      /\ _clientColumnsStartAt1 (outcome_session o) = _clientColumnsStartAt1 this
      /\ convertDebuggerLineToClient (outcome_session o) 5 = 4).
Proof.
  split.
  - destruct (dispatchRequest_default_initialize TypeError_message TypeError_stack
                seq lines columns this) as [r ->].
    cbn [outcome_session].
    split; [|split].
    + apply (client_flags_from_lines
               (InitializeRequestArguments.mk lines columns (Some "path"))).
    + apply (client_flags_from_columns
               (InitializeRequestArguments.mk lines columns (Some "path"))).
    + apply (client_flags_from_debugger_lines
               (InitializeRequestArguments.mk lines columns (Some "path"))).
  - destruct (dispatchRequest_default_initialize TypeError_message TypeError_stack
                seq (Some false) None (setDebuggerLinesStartAt1 true this)) as [r ->].
    cbn [outcome_session]. repeat split.
Qed.

(** C2 (as amended).  For an [initialize] request the dispatcher first
    takes over the client flags from [linesStartAt1] and [columnsStartAt1]
    (each only when it is a boolean), whatever the path format is.  If
    [pathFormat] is not ["path"] it then hands exactly one response to the
    transport, an error with id 2018 flagged for telemetry only, whose body
    holds the error and no capability; no handler takes part in the result.
    If [pathFormat] is ["path"] it calls the [initialize] handler with an empty
    body and the updated session, and turns a throw of the handler into the
    response of the [catch] clause (a thrown [null] or [undefined] makes the
    [catch] clause itself throw). *)
Theorem dispatchRequest_initialize_path_format
    (methods : Methods.t) (TypeError_message TypeError_stack : string -> string)
    (seq : Z) (args : InitializeRequestArguments.t) (this : DebugSession) :
  let request := Request.mk seq "initialize" (Some args) in
  let this1 := client_flags_from args this in
  let msg := Message.mk 2018 (Some "debug adapter only supports native paths")
               None None (Some true) in
  let r := Response.mk seq "initialize" false
             (Some "debug adapter only supports native paths")
             (Some (Body.set_error msg Body.empty)) in
  dispatchRequest methods TypeError_message TypeError_stack request this
  = (if bool_decide (InitializeRequestArguments.pathFormat args = Some "path")
     then
       match Methods.initializeRequest methods
               (Response.mk seq "initialize" true None (Some Body.empty))
               args this1 with
       | Returned this2 r2 => Returned this2 r2
       | Threw e this2 r2 =>
           match e with
           | TypeError what =>
               Returned
                 (sendResponse
                    (exception_response r2 (Some (TypeError_message what))
                       (Some (TypeError_stack what))) this2)
                 (exception_response r2 (Some (TypeError_message what))
                    (Some (TypeError_stack what)))
           | ThrownNull =>
               Threw (TypeError "Cannot read property 'message' of null")
                 this2 r2
           | Thrown message stack =>
               Returned (sendResponse (exception_response r2 message stack) this2)
                 (exception_response r2 message stack)
           end
       end
     else Returned (sendResponse r this1) r)
  /\ sent (sendResponse r this1) = (sent this ++ [r])%list
  /\ _clientLinesStartAt1 this1
     = default (_clientLinesStartAt1 this) (InitializeRequestArguments.linesStartAt1 args)
  /\ _clientColumnsStartAt1 this1
     = default (_clientColumnsStartAt1 this)
         (InitializeRequestArguments.columnsStartAt1 args).
Proof.
  intros request this1 msg r.
  split; [|split; [|split]].
  - unfold dispatchRequest, request. rewrite dispatchRequest_try_initialize.
    fold this1. destruct (bool_decide _).
    + change (Response.set_body Body.empty
                (Response_new (Request.mk seq "initialize" (Some args))))
        with (Response.mk seq "initialize" true None (Some Body.empty)).
      destruct (Methods.initializeRequest methods _ args this1) as [this2 r2|e this2 r2];
        [reflexivity|].
      destruct e as [what| |message stack]; cbn [e_message e_stack];
        [apply sendErrorResponse_exception|reflexivity
        |apply sendErrorResponse_exception].
    + rewrite sendErrorResponse_plain by reflexivity. reflexivity.
  - rewrite sent_sendResponse. unfold this1. now rewrite sent_client_flags_from.
  - apply client_flags_from_lines.
  - apply client_flags_from_columns.
Qed.

(** C2, as stated, fails: the request asks for URIs, and the flag for the
    client lines, true before, is false after the dispatch. *)
Lemma dispatchRequest_initialize_uri_updates_flag :
  let this := DebugSession_new None None in
  let request :=
    Request.mk 1 "initialize"
      (Some (InitializeRequestArguments.mk (Some false) None (Some "uri"))) in
  let o := dispatchRequest DebugSession_methods (fun what => what)
             (fun what => what) request this in
  body_error (outcome_response o)
  = Some (Message.mk 2018 (Some "debug adapter only supports native paths")
            None None (Some true))
  /\ _clientLinesStartAt1 this = true
  /\ _clientLinesStartAt1 (outcome_session o) = false
  /\ _clientLinesStartAt1 (outcome_session o) <> _clientLinesStartAt1 this.
Proof.
  cbv zeta.
  split; [vm_compute; reflexivity|].
  split; [reflexivity|].
  split; [vm_compute; reflexivity|].
  vm_compute. discriminate.
Qed.

(** C5 (as amended).  When the [try] block of the dispatcher ends in a
    throw of anything but [null] or [undefined] (a handler threw, or the
    dispatcher's own reading of the arguments did), the dispatcher returns
    normally and hands exactly one more response to the transport, after
    whatever the handler had sent: an error with id 1104, flagged for
    telemetry and not for the user, whose variables [_exception] and [_stack]
    hold the message and the stack of the thrown value, as far as it has them.
    Both names start with an underscore, so redaction does not touch them:
    with redaction as without, the placeholder of each is replaced by its
    value when that is not empty and is left as it is otherwise, and the
    message of the response is this rendering of the stack. *)
Theorem dispatchRequest_catches
    (methods : Methods.t) (TypeError_message TypeError_stack : string -> string)
    (request : Request.t) (this this1 : DebugSession) (e : thrown)
    (r1 : Response.t) :
  dispatchRequest_try methods request (Response_new request) this = Threw e this1 r1 ->
  e <> ThrownNull ->
  let m := match e with
           | TypeError what => Some (TypeError_message what)
           | Thrown message _ => message
           | ThrownNull => None
           end in
  let st := match e with
            | TypeError what => Some (TypeError_stack what)
            | Thrown _ stack => stack
            | ThrownNull => None
            end in
  let vars := exception_variables m st in
  let r := exception_response r1 m st in
  dispatchRequest methods TypeError_message TypeError_stack request this
  = Returned (sendResponse r this1) r
  /\ sent (sendResponse r this1) = (sent this1 ++ [r])%list
  /\ Response.success r = false
  /\ body_error r = Some (Message.mk 1104 (Some "{_stack}") (Some vars) None (Some true))
  /\ vars !! "_exception" = m
  /\ vars !! "_stack" = st
  /\ (forall message stack : string,
        e = Thrown (Some message) (Some stack) ->
        vars = <["_exception" := message]> (<["_stack" := stack]> ∅))
  /\ Response.message r = Some (shown "_stack" st)
  /\ (forall redact,
        formatPII (Some "{_exception}") redact (Some vars)
        = Normal (shown "_exception" m)
        /\ formatPII (Some "{_stack}") redact (Some vars)
           = Normal (shown "_stack" st))
  /\ (forall name text,
        text <> EmptyString -> shown name (Some text) = text).
Proof.
  intros H Hnull m st vars r.
  destruct (exception_variables_lookup m st) as (_ & Hm & Hst).
  split.
  { rewrite (dispatchRequest_Threw _ _ _ _ _ _ _ _ H).
    destruct e as [what| |message stack]; [reflexivity|congruence|reflexivity]. }
  repeat (split; [first [reflexivity | exact Hm | exact Hst]|]).
  split.
  { intros message stack ->. reflexivity. }
  split; [reflexivity|]. split.
  - intros redact. split.
    + etransitivity;
        [exact (formatPII_exception_variable redact m st "_exception"
                  eq_refl eq_refl)|].
      now rewrite Hm.
    + etransitivity;
        [exact (formatPII_exception_variable redact m st "_stack"
                  eq_refl eq_refl)|].
      now rewrite Hst.
  - intros name text Ht. unfold shown.
    destruct (String.eqb_spec text EmptyString); [contradiction|reflexivity].
Qed.

(** A [launch] handler that throws an [Error] with a message. *)
Lemma dispatchRequest_catches_witness :
  let request := Request.mk 9 "launch" None in
  let this := DebugSession_new None None in
  let e := Thrown (Some "no program")
             (Some "Error: no program at launchRequest") in
  dispatchRequest_try (throwing_launch e) request (Response_new request) this
  = Threw e this (Response_new request)
  /\ e <> ThrownNull
  /\ exists r,
       dispatchRequest (throwing_launch e) (fun what => what) (fun what => what)
         request this
       = Returned (sendResponse r this) r
       /\ sent (sendResponse r this) = [r]
       /\ Response.message r = Some "Error: no program at launchRequest"
       /\ (body_error r ≫= Message.variables)
          = Some (<["_exception" := "no program"]>
                    (<["_stack" := "Error: no program at launchRequest"]> ∅))
       /\ formatPII (Some "{_exception}") true (body_error r ≫= Message.variables)
          = Normal "no program".
Proof.
  intros request this e.
  assert (H : dispatchRequest_try (throwing_launch e) request
                (Response_new request) this
              = Threw e this (Response_new request)) by reflexivity.
  assert (Hnull : e <> ThrownNull) by discriminate.
  split; [exact H|]. split; [exact Hnull|].
  destruct (dispatchRequest_catches (throwing_launch e) (fun what => what)
              (fun what => what) request this this e _ H Hnull)
    as (Hd & Hs & _ & Hb & _ & _ & Hv & Hmsg & Hf & _).
  eexists. split; [exact Hd|]. split; [exact Hs|]. split; [exact Hmsg|].
  rewrite Hb. cbn [mbind option_bind Message.variables].
  split; [reflexivity|]. exact (proj1 (Hf true)).
Defined.

(** C5, as stated, fails in two ways.  A handler throws an [Error] without
    message ([new Error()]): the variable [_exception] is there and empty, and
    its placeholder is not replaced by it.  A handler throws [null]: reading
    its message in the [catch] clause throws, the exception leaves
    [dispatchRequest] and nothing is sent. *)
Lemma dispatchRequest_catches_not_every_throw :
  let request := Request.mk 9 "launch" None in
  let this := DebugSession_new None None in
  let e := Thrown (Some EmptyString) (Some "Error at launchRequest") in
  let o := dispatchRequest (throwing_launch e) (fun what => what)
             (fun what => what) request this in
  let vars := body_error (outcome_response o) ≫= Message.variables in
  (vars ≫= fun v => v !! "_exception") = Some EmptyString
  /\ formatPII (Some "{_exception}") true vars = Normal "{_exception}"
  /\ formatPII (Some "{_exception}") true vars <> Normal EmptyString
  /\ dispatchRequest (throwing_launch ThrownNull) (fun what => what)
       (fun what => what) request this
     = Threw (TypeError "Cannot read property 'message' of null") this
         (Response_new request).
Proof.
  cbv zeta.
  split; [vm_compute; reflexivity|].
  split; [vm_compute; reflexivity|].
  split; [vm_compute; discriminate|].
  reflexivity.
Qed.

(** ** Paths and URIs *)

Lemma path_plain_char c :
  path_plain c = true ->
  encodeURI_unescaped c = true
  /\ Ascii.eqb c backslash = false
  /\ existsb (Ascii.eqb c) autoEscape = false
  /\ Ascii.eqb c "#" = false
  /\ Ascii.eqb c "?" = false.
Proof.
  destruct c as [b0 b1 b2 b3 b4 b5 b6 b7].
  destruct b0, b1, b2, b3, b4, b5, b6, b7; vm_compute; intros H;
    first [discriminate H | repeat split].
Qed.

Lemma encodeURI_plain s :
  forallb path_plain (list_ascii_of_string s) = true -> encodeURI s = s.
Proof.
  induction s as [|c t IH]; [reflexivity|]. cbn [list_ascii_of_string forallb encodeURI].
  intros H. apply andb_prop in H as [Hc Ht].
  apply path_plain_char in Hc as (Hc & _). unfold encodeURI_unit.
  rewrite Hc, append_cons, append_nil, (IH Ht). reflexivity.
Qed.

Lemma replace_backslashes_plain s :
  forallb path_plain (list_ascii_of_string s) = true -> replace_backslashes s = s.
Proof.
  induction s as [|c t IH]; [reflexivity|]. cbn [list_ascii_of_string forallb replace_backslashes].
  intros H. apply andb_prop in H as [Hc Ht].
  apply path_plain_char in Hc as (_ & Hc & _). rewrite Hc, (IH Ht). reflexivity.
Qed.

Lemma auto_escape_plain s :
  forallb path_plain (list_ascii_of_string s) = true -> auto_escape s = s.
Proof.
  induction s as [|c t IH]; [reflexivity|]. cbn [list_ascii_of_string forallb auto_escape].
  intros H. apply andb_prop in H as [Hc Ht].
  apply path_plain_char in Hc as (_ & _ & Hc & _).
  rewrite Hc, append_cons, append_nil, (IH Ht). reflexivity.
Qed.

Lemma cut_at_plain s :
  forallb path_plain (list_ascii_of_string s) = true ->
  cut_at "#" s = s /\ cut_at "?" s = s.
Proof.
  induction s as [|c t IH]; [split; reflexivity|]. cbn [list_ascii_of_string forallb cut_at].
  intros H. apply andb_prop in H as [Hc Ht].
  apply path_plain_char in Hc as (_ & _ & _ & Hh & Hq).
  destruct (IH Ht) as [IH1 IH2]. rewrite Hh, Hq, IH1, IH2. split; reflexivity.
Qed.

Lemma uri_alphabet_plain s :
  forallb path_plain (list_ascii_of_string s) = true ->
  forallb uri_alphabet (list_ascii_of_string s) = true.
Proof.
  induction s as [|c t IH]; [reflexivity|]. cbn [list_ascii_of_string forallb].
  intros H. apply andb_prop in H as [Hc Ht].
  apply path_plain_char in Hc as (Hc & _). unfold uri_alphabet at 1.
  rewrite Hc, (IH Ht). reflexivity.
Qed.

Lemma forallb_cons_string (f : ascii -> bool) c s :
  forallb f (list_ascii_of_string (String c s))
  = f c && forallb f (list_ascii_of_string s).
Proof. reflexivity. Qed.

Lemma path2uri_plain p :
  rooted p = true -> forallb path_plain (list_ascii_of_string p) = true ->
  path2uri p = "file://" ++ p.
Proof.
  intros Hr Hp. unfold path2uri. rewrite (replace_backslashes_plain _ Hp).
  destruct p as [|c t]; [discriminate|]. cbn [rooted] in Hr. rewrite Hr.
  apply encodeURI_plain.
  change ("file://" ++ String c t)
    with (String "f" (String "i" (String "l" (String "e" (String ":"
           (String "/" (String "/" (String c t)))))))).
  rewrite 7!(forallb_cons_string path_plain), Hp. reflexivity.
Qed.

(** C8 (as amended).  For every path that begins with a slash and is made
    of characters that need no escaping and delimit nothing in a URL (letters,
    digits and [- _ . ! ~ * ( ) ; / : @ & = + $ ,]), [path2uri] prefixes
    [file://] and changes nothing else, and [uri2path] gives the path back. *)
Theorem uri2path_path2uri (p : string) :
  rooted p = true ->
  forallb path_plain (list_ascii_of_string p) = true ->
  path2uri p = "file://" ++ p /\ uri2path (path2uri p) = Some p.
Proof.
  intros Hr Hp. split; [now apply path2uri_plain|].
  rewrite (path2uri_plain _ Hr Hp). unfold uri2path, Url_parse_pathname.
  destruct p as [|c t]; [discriminate|].
  change ("file://" ++ String c t)
    with (String "f" (String "i" (String "l" (String "e" (String ":"
           (String "/" (String "/" (String c t)))))))).
  rewrite 7!(forallb_cons_string uri_alphabet).
  rewrite (uri_alphabet_plain (String c t) Hp).
  cbn [rooted] in Hr.
  change (strip_prefix "file://" (String "f" (String "i" (String "l" (String "e"
            (String ":" (String "/" (String "/" (String c t)))))))))
    with (Some (String c t)).
  cbn [andb]. rewrite Hr, (auto_escape_plain _ Hp).
  destruct (cut_at_plain _ Hp) as [-> ->]. reflexivity.
Qed.

Lemma uri2path_path2uri_witness :
  rooted "/home/user/app.js" = true
  /\ forallb path_plain (list_ascii_of_string "/home/user/app.js") = true
  /\ path2uri "/home/user/app.js" = "file:///home/user/app.js"
  /\ uri2path (path2uri "/home/user/app.js") = Some "/home/user/app.js".
Proof.
  assert (Hr : rooted "/home/user/app.js" = true) by reflexivity.
  assert (Hp : forallb path_plain (list_ascii_of_string "/home/user/app.js") = true)
    by reflexivity.
  split; [exact Hr|]. split; [exact Hp|].
  exact (uri2path_path2uri "/home/user/app.js" Hr Hp).
Defined.

(** C8, as stated, fails on an absolute path with a drive letter: it has
    no backslash and nothing in it is escaped, [path2uri] prefixes the slash,
    and the slash is still there on the way back. *)
Lemma uri2path_path2uri_drive_letter :
  forallb path_plain (list_ascii_of_string "C:/foo") = true
  /\ path2uri "C:/foo" = "file:///C:/foo"
  /\ path2uri "C:/foo" = path2uri "/C:/foo"
  /\ uri2path (path2uri "C:/foo") = Some "/C:/foo"
  /\ uri2path (path2uri "C:/foo") <> Some "C:/foo".
Proof.
  split; [reflexivity|].
  split; [reflexivity|].
  split; [reflexivity|].
  split; [reflexivity|].
  vm_compute. discriminate.
Qed.

(** * Further properties *)

(** ** The formatter and the variables *)

Lemma exec_sound s name rest :
  _formatPIIRegexp_exec s = Some (name, rest) ->
  s = token name ++ rest
  /\ exists c n, name = String c n /\ s = String open_brace (String c (n ++ String close_brace rest)).
Proof.
  assert (Hspan : forall u n r, span_name u = (n, r) -> u = n ++ r).
  { induction u as [|a u IH]; simpl; intros n r.
    - intros [= <- <-]. reflexivity.
    - destruct (Ascii.eqb a close_brace).
      + intros [= <- <-]. reflexivity.
      + destruct (span_name u) as [n' r'] eqn:E. intros [= <- <-].
        rewrite append_cons, <- (IH _ _ eq_refl). reflexivity. }
  destruct s as [|c t]; [discriminate|]. unfold _formatPIIRegexp_exec.
  destruct (Ascii.eqb_spec c open_brace) as [->|]; [|discriminate].
  destruct (span_name t) as [[|c1 n] [|c2 r]] eqn:E; try discriminate.
  destruct (Ascii.eqb_spec c2 close_brace) as [->|]; [|discriminate].
  intros [= <- <-]. apply Hspan in E. subst t.
  split; [now rewrite append_assoc_token|].
  exists c1, n. split; [reflexivity|]. now rewrite append_cons.
Qed.

Lemma String_replace_ext f g s :
  (forall m n, n <> EmptyString -> f m n = g m n) ->
  String_replace f s = String_replace g s.
Proof.
  intros Hfg. remember (String.length s) as k eqn:Hk.
  revert s Hk. induction k as [k IH] using lt_wf_ind. intros s ->.
  rewrite (String_replace_step f), (String_replace_step g).
  destruct s as [|c t]; [reflexivity|].
  destruct (_formatPIIRegexp_exec (String c t)) as [[name rest]|] eqn:E.
  - rewrite (Hfg _ _ (exec_name_nonempty _ _ _ E)).
    rewrite (IH _ (_formatPIIRegexp_exec_length _ _ _ E) rest eq_refl).
    reflexivity.
  - rewrite (IH (String.length t) (Nat.lt_succ_diag_r _) t eq_refl). reflexivity.
Qed.

Lemma formatPII_replacer_agree (args1 args2 : gmap string string) m name :
  args1 !! "hasOwnProperty" = args2 !! "hasOwnProperty" ->
  (forall n, starts_with_underscore n = true -> args1 !! n = args2 !! n) ->
  name <> EmptyString ->
  formatPII_replacer true (Some args1) m name
  = formatPII_replacer true (Some args2) m name.
Proof.
  intros Hown Hagree Hne. unfold formatPII_replacer.
  assert (Hlen : (0 <? String.length name)%nat = true)
    by (destruct name; [congruence|reflexivity]).
  rewrite Hlen. cbn [andb].
  destruct (starts_with_underscore name) eqn:Hu; [|reflexivity].
  cbn [negb]. unfold truthy_get, hasOwnProperty.
  rewrite Hown, (Hagree _ Hu). reflexivity.
Qed.

(** X1.  A rendering with redaction depends only on the variables whose
    name starts with an underscore: two mappings that agree on those names
    (and on whether [hasOwnProperty] is shadowed) give the same result for
    every template, whatever their other variables hold. *)
Theorem formatPII_redaction_hides_variables
    (format : string) (args1 args2 : gmap string string) :
  args1 !! "hasOwnProperty" = args2 !! "hasOwnProperty" ->
  (forall n, starts_with_underscore n = true -> args1 !! n = args2 !! n) ->
  formatPII (Some format) true (Some args1)
  = formatPII (Some format) true (Some args2).
Proof.
  intros Hown Hagree. unfold formatPII. apply String_replace_ext.
  intros m n Hn. now apply formatPII_replacer_agree.
Qed.

Lemma underscore_key_insert (k v : string) (args : gmap string string) n :
  starts_with_underscore k = false ->
  starts_with_underscore n = true ->
  <[k := v]> args !! n = args !! n.
Proof.
  intros Hk Hn. apply lookup_insert_ne. intros ->. congruence.
Qed.

Lemma formatPII_redaction_hides_variables_witness :
  let args1 : gmap string string := <["user" := "alice"]> (<["_id" := "E7"]> ∅) in
  let args2 : gmap string string := <["user" := "bob"]> (<["_id" := "E7"]> ∅) in
  args1 !! "hasOwnProperty" = args2 !! "hasOwnProperty"
  /\ formatPII (Some "{_id}: {user}") true (Some args1)
     = formatPII (Some "{_id}: {user}") true (Some args2).
Proof.
  intros args1 args2.
  assert (Hown : args1 !! "hasOwnProperty" = args2 !! "hasOwnProperty")
    by (vm_compute; reflexivity).
  split; [exact Hown|].
  apply (formatPII_redaction_hides_variables "{_id}: {user}" args1 args2 Hown).
  intros n Hn. unfold args1, args2.
  rewrite !(underscore_key_insert "user") by (reflexivity || exact Hn).
  reflexivity.
Defined.

Lemma has_open_underscore_app a b :
  has_open_underscore (a ++ b) = false -> has_open_underscore b = false.
Proof.
  induction a as [|c a IH]; [trivial|]. rewrite append_cons.
  cbn [has_open_underscore]. intros H.
  apply Bool.orb_false_elim in H as [_ H]. now apply IH.
Qed.

Lemma String_replace_redacted replacer s :
  (forall n, n <> EmptyString -> starts_with_underscore n = false ->
             replacer (token n) n = Normal (token n)) ->
  has_open_underscore s = false ->
  String_replace replacer s = Normal s.
Proof.
  intros Hr. remember (String.length s) as k eqn:Hk.
  revert s Hk. induction k as [k IH] using lt_wf_ind. intros s -> Hs.
  rewrite String_replace_step. destruct s as [|c t]; [reflexivity|].
  destruct (_formatPIIRegexp_exec (String c t)) as [[name rest]|] eqn:E.
  - pose proof (_formatPIIRegexp_exec_length _ _ _ E) as Hlen.
    destruct (exec_sound _ _ _ E) as (Hs1 & c1 & n & -> & Hs2).
    assert (Hu : starts_with_underscore (String c1 n) = false).
    { pose proof Hs as Hs'. rewrite Hs2 in Hs'. cbn [has_open_underscore] in Hs'.
      apply Bool.orb_false_elim in Hs' as [Hs' _].
      rewrite Ascii.eqb_refl in Hs'. exact Hs'. }
    assert (Hne : String c1 n <> EmptyString) by discriminate.
    rewrite (Hr _ Hne Hu).
    assert (Hrest : has_open_underscore rest = false).
    { pose proof Hs as Hs'. rewrite Hs1 in Hs'.
      now apply has_open_underscore_app in Hs'. }
    rewrite (IH _ Hlen rest eq_refl Hrest). cbn [bind]. now rewrite <- Hs1.
  - cbn [has_open_underscore] in Hs. apply Bool.orb_false_elim in Hs as [_ Hs].
    rewrite (IH (String.length t) (Nat.lt_succ_diag_r _) t eq_refl Hs).
    reflexivity.
Qed.

Lemma formatPII_replacer_redacted args n :
  n <> EmptyString -> starts_with_underscore n = false ->
  formatPII_replacer true args (token n) n = Normal (token n).
Proof.
  intros Hne Hu. unfold formatPII_replacer.
  assert (Hlen : (0 <? String.length n)%nat = true)
    by (destruct n; [congruence|reflexivity]).
  now rewrite Hlen, Hu.
Qed.

(** X2.  A template in which no opening brace is directly followed by an
    underscore is rendered with redaction as it stands, whatever the
    variables are and also when there are none; [sendErrorResponse] then
    sends it as the message of the response, for every code, destination and
    variables argument. *)
Theorem sendErrorResponse_template_verbatim
    (response : Response.t) (code : Z) (text : string)
    (variables : option (gmap string string)) (dest : option Z)
    (this : DebugSession) :
  has_open_underscore text = false ->
  formatPII (Some text) true variables = Normal text
  /\ exists r,
       sendErrorResponse response (inl code) (Some text) variables dest this
       = Returned (sendResponse r this) r
       /\ Response.message r = Some text
       /\ Response.success r = false.
Proof.
  intros H.
  assert (Hf : formatPII (Some text) true variables = Normal text).
  { apply String_replace_redacted; [|exact H].
    intros n. apply formatPII_replacer_redacted. }
  split; [exact Hf|].
  eexists. split; [apply sendErrorResponse_Normal; exact Hf|]. split; reflexivity.
Qed.

Lemma sendErrorResponse_template_verbatim_witness :
  has_open_underscore "cannot open {path}: {reason}" = false
  /\ formatPII (Some "cannot open {path}: {reason}") true None
     = Normal "cannot open {path}: {reason}".
Proof.
  assert (H : has_open_underscore "cannot open {path}: {reason}" = false)
    by reflexivity.
  split; [exact H|].
  exact (proj1 (sendErrorResponse_template_verbatim
                  (Response_new (Request.mk 1 "launch" None)) 3001
                  "cannot open {path}: {reason}" None None
                  (DebugSession_new None None) H)).
Defined.

Lemma String_replace_unchanged_or_throw replacer s out :
  (forall n r, replacer (token n) n = Normal r -> r = token n) ->
  String_replace replacer s = Normal out -> out = s.
Proof.
  intros Hr. remember (String.length s) as k eqn:Hk.
  revert s out Hk. induction k as [k IH] using lt_wf_ind. intros s out ->.
  rewrite String_replace_step. destruct s as [|c t]; [now intros [= <-]|].
  destruct (_formatPIIRegexp_exec (String c t)) as [[name rest]|] eqn:E.
  - pose proof (_formatPIIRegexp_exec_length _ _ _ E) as Hlen.
    destruct (exec_sound _ _ _ E) as (Hs1 & _).
    destruct (replacer (token name) name) as [r|e] eqn:Er; [|discriminate].
    apply Hr in Er. subst r. cbn [bind].
    destruct (String_replace replacer rest) as [o|e] eqn:Eo; [|discriminate].
    cbn [bind]. intros [= <-].
    rewrite (IH _ Hlen rest o eq_refl Eo). now rewrite <- Hs1.
  - destruct (String_replace replacer t) as [o|e] eqn:Eo; [|discriminate].
    cbn [bind]. intros [= <-].
    now rewrite (IH (String.length t) (Nat.lt_succ_diag_r _) t o eq_refl Eo).
Qed.

Lemma String_replace_token replacer name rest :
  name <> EmptyString -> has_close_brace name = false ->
  String_replace replacer (token name ++ rest)
  = (let! r := replacer (token name) name in
     let! out := String_replace replacer rest in
     Normal (r ++ out)).
Proof.
  intros Hne Hn. pose proof (exec_token name rest Hne Hn) as E.
  rewrite String_replace_step. rewrite append_assoc_token in *.
  rewrite E. reflexivity.
Qed.

(** X3.  Without a variables mapping the formatter substitutes nothing: it
    either returns the template unchanged or throws (when a placeholder that
    may be shown makes it read the missing mapping); and without redaction it
    throws as soon as the template holds a placeholder. *)
Theorem formatPII_without_variables (format : string) (redact : bool) :
  match formatPII (Some format) redact None with
  | Normal out => out = format
  | Throw _ => True
  end
  /\ forall before name rest,
       has_close_brace before = false -> name <> EmptyString ->
       has_close_brace name = false ->
       exists e, formatPII (Some (before ++ token name ++ rest)) false None = Throw e.
Proof.
  split.
  - destruct (formatPII (Some format) redact None) as [out|e] eqn:E; [|trivial].
    apply (String_replace_unchanged_or_throw _ _ _) in E; [exact E|].
    intros n r. unfold formatPII_replacer.
    destruct (redact && (0 <? String.length n)%nat && negb (starts_with_underscore n));
      [now intros [= <-]|discriminate].
  - intros before name rest Hb Hne Hn. unfold formatPII.
    induction before as [|c b IH].
    + rewrite append_nil, (String_replace_token _ _ _ Hne Hn).
      unfold formatPII_replacer at 1. cbn [andb bind]. eauto.
    + cbn [has_close_brace] in Hb. apply Bool.orb_false_elim in Hb as [Hc Hb].
      destruct (IH Hb) as [e He].
      rewrite append_cons, String_replace_step.
      destruct (_formatPIIRegexp_exec (String c (b ++ token name ++ rest)))
        as [[n r]|] eqn:E.
      * unfold formatPII_replacer at 1. cbn [andb bind]. eauto.
      * rewrite He. cbn [bind]. eauto.
Qed.

(** ** Paths and URIs, in general *)

Lemma append_assoc (a b c : string) : (a ++ b) ++ c = a ++ (b ++ c).
Proof.
  induction a as [|x a IH]; [reflexivity|]. rewrite !append_cons. now f_equal.
Qed.

Lemma length_append (a b : string) :
  String.length (a ++ b) = (String.length a + String.length b)%nat.
Proof.
  induction a as [|x a IH]; [reflexivity|]. rewrite append_cons. simpl. now rewrite IH.
Qed.

Lemma chars_append (a b : string) :
  list_ascii_of_string (a ++ b)
  = (list_ascii_of_string a ++ list_ascii_of_string b)%list.
Proof.
  induction a as [|x a IH]; [reflexivity|]. rewrite append_cons. simpl. now rewrite IH.
Qed.

Lemma pathName_rooted str : exists t, pathName str = String slash t.
Proof.
  unfold pathName. destruct (replace_backslashes str) as [|c t]; [eauto|].
  destruct (Ascii.eqb_spec c slash) as [->|]; eauto.
Qed.

Lemma path2uri_pathName str : path2uri str = "file://" ++ encodeURI (pathName str).
Proof. reflexivity. Qed.

(** What each code unit turns into is made of URI characters. *)
Lemma encodeURI_unit_alphabet c :
  forallb uri_alphabet (list_ascii_of_string (encodeURI_unit c)) = true.
Proof.
  destruct c as [b0 b1 b2 b3 b4 b5 b6 b7].
  destruct b0, b1, b2, b3, b4, b5, b6, b7; vm_compute; reflexivity.
Qed.

Lemma encodeURI_alphabet s :
  forallb uri_alphabet (list_ascii_of_string (encodeURI s)) = true.
Proof.
  induction s as [|c t IH]; [reflexivity|]. cbn [encodeURI].
  rewrite chars_append, forallb_app, encodeURI_unit_alphabet, IH. reflexivity.
Qed.

Lemma encodeURI_slash t : encodeURI (String slash t) = String slash (encodeURI t).
Proof. reflexivity. Qed.

(** The path name the parser finds in the URI of [str]. *)
Lemma uri2path_path2uri_formula str :
  uri2path (path2uri str)
  = Some (cut_at "?" (cut_at "#" (auto_escape (encodeURI (pathName str))))).
Proof.
  rewrite path2uri_pathName. unfold uri2path, Url_parse_pathname.
  destruct (pathName_rooted str) as [t ->]. rewrite encodeURI_slash.
  change ("file://" ++ String slash (encodeURI t))
    with (String "f" (String "i" (String "l" (String "e" (String ":"
           (String "/" (String "/" (String slash (encodeURI t))))))))).
  rewrite 8!(forallb_cons_string uri_alphabet), encodeURI_alphabet.
  reflexivity.
Qed.




Lemma forallb_weaken {A} (P Q : A -> bool) l :
  (forall x, P x = true -> Q x = true) ->
  forallb P l = true -> forallb Q l = true.
Proof.
  intros HPQ. induction l as [|x l IH]; [trivial|]. cbn [forallb].
  intros H. apply andb_prop in H as [Hx Hl]. now rewrite (HPQ _ Hx), (IH Hl).
Qed.

Lemma auto_escape_unit_chars c :
  uri_alphabet c = true ->
  forallb (fun x => uri_alphabet x && negb (existsb (Ascii.eqb x) autoEscape))
    (list_ascii_of_string
       (if existsb (Ascii.eqb c) autoEscape then percent_octet (N_of_ascii c)
        else String c EmptyString)) = true.
Proof.
  destruct c as [b0 b1 b2 b3 b4 b5 b6 b7].
  destruct b0, b1, b2, b3, b4, b5, b6, b7; vm_compute; intros H;
    first [discriminate H | reflexivity].
Qed.

Lemma auto_escape_chars s :
  forallb uri_alphabet (list_ascii_of_string s) = true ->
  forallb (fun x => uri_alphabet x && negb (existsb (Ascii.eqb x) autoEscape))
    (list_ascii_of_string (auto_escape s)) = true.
Proof.
  induction s as [|c t IH]; [reflexivity|].
  rewrite forallb_cons_string. cbn [auto_escape]. intros H.
  apply andb_prop in H as [Hc Ht].
  rewrite chars_append, forallb_app, (auto_escape_unit_chars _ Hc), (IH Ht).
  reflexivity.
Qed.

Lemma cut_at_chars (P : ascii -> bool) d s :
  forallb P (list_ascii_of_string s) = true ->
  forallb (fun x => P x && negb (Ascii.eqb x d))
    (list_ascii_of_string (cut_at d s)) = true.
Proof.
  induction s as [|c t IH]; [reflexivity|].
  rewrite forallb_cons_string. cbn [cut_at]. intros H.
  apply andb_prop in H as [Hc Ht].
  destruct (Ascii.eqb c d) eqn:E; [reflexivity|].
  rewrite forallb_cons_string, Hc, E, (IH Ht). reflexivity.
Qed.

Lemma kept_char_plain_or_percent c :
  uri_alphabet c && negb (existsb (Ascii.eqb c) autoEscape)
  && negb (Ascii.eqb c "#") && negb (Ascii.eqb c "?") = true ->
  plain_or_percent c = true.
Proof.
  destruct c as [b0 b1 b2 b3 b4 b5 b6 b7].
  destruct b0, b1, b2, b3, b4, b5, b6, b7; vm_compute; intros H;
    first [discriminate H | reflexivity].
Qed.

(** What [encodeURI] does to such a character: a plain one is copied, the
    percent sign becomes three characters. *)
Lemma plain_or_percent_char c :
  plain_or_percent c = true ->
  Ascii.eqb c backslash = false
  /\ existsb (Ascii.eqb c) autoEscape = false
  /\ Ascii.eqb c "#" = false
  /\ Ascii.eqb c "?" = false
  /\ forallb plain_or_percent (list_ascii_of_string (encodeURI_unit c)) = true
  /\ (path_plain c = true /\ encodeURI_unit c = String c EmptyString
      \/ path_plain c = false /\ String.length (encodeURI_unit c) = 3%nat).
Proof.
  destruct c as [b0 b1 b2 b3 b4 b5 b6 b7].
  destruct b0, b1, b2, b3, b4, b5, b6, b7; vm_compute; intros H;
    first [discriminate H
          | repeat (split; [reflexivity|]); left; split; reflexivity
          | repeat (split; [reflexivity|]); right; split; reflexivity].
Qed.

Lemma replace_backslashes_percent s :
  forallb plain_or_percent (list_ascii_of_string s) = true ->
  replace_backslashes s = s.
Proof.
  induction s as [|c t IH]; [reflexivity|].
  rewrite forallb_cons_string. cbn [replace_backslashes]. intros H.
  apply andb_prop in H as [Hc Ht].
  apply plain_or_percent_char in Hc as (Hc & _). now rewrite Hc, (IH Ht).
Qed.

Lemma encodeURI_percent_chars s :
  forallb plain_or_percent (list_ascii_of_string s) = true ->
  forallb plain_or_percent (list_ascii_of_string (encodeURI s)) = true.
Proof.
  induction s as [|c t IH]; [reflexivity|].
  rewrite forallb_cons_string. cbn [encodeURI]. intros H.
  apply andb_prop in H as [Hc Ht].
  apply plain_or_percent_char in Hc as (_ & _ & _ & _ & Hc & _).
  now rewrite chars_append, forallb_app, Hc, (IH Ht).
Qed.

Lemma auto_escape_percent s :
  forallb plain_or_percent (list_ascii_of_string s) = true -> auto_escape s = s.
Proof.
  induction s as [|c t IH]; [reflexivity|].
  rewrite forallb_cons_string. cbn [auto_escape]. intros H.
  apply andb_prop in H as [Hc Ht].
  apply plain_or_percent_char in Hc as (_ & Hc & _).
  now rewrite Hc, append_cons, append_nil, (IH Ht).
Qed.

Lemma cut_at_percent s :
  forallb plain_or_percent (list_ascii_of_string s) = true ->
  cut_at "#" s = s /\ cut_at "?" s = s.
Proof.
  induction s as [|c t IH]; [split; reflexivity|].
  rewrite forallb_cons_string. cbn [cut_at]. intros H.
  apply andb_prop in H as [Hc Ht].
  apply plain_or_percent_char in Hc as (_ & _ & Hh & Hq & _).
  destruct (IH Ht) as [IH1 IH2]. rewrite Hh, Hq, IH1, IH2. split; reflexivity.
Qed.

Lemma parser_keeps_percent s :
  forallb plain_or_percent (list_ascii_of_string s) = true ->
  cut_at "?" (cut_at "#" (auto_escape s)) = s.
Proof.
  intros H. rewrite (auto_escape_percent _ H).
  destruct (cut_at_percent _ H) as [-> ->]. reflexivity.
Qed.

Lemma encodeURI_length s :
  forallb plain_or_percent (list_ascii_of_string s) = true ->
  (String.length s <= String.length (encodeURI s))%nat
  /\ (String.length (encodeURI s) = String.length s ->
      forallb path_plain (list_ascii_of_string s) = true).
Proof.
  induction s as [|c t IH]; [split; [reflexivity|trivial]|].
  rewrite forallb_cons_string. cbn [encodeURI]. intros H.
  apply andb_prop in H as [Hc Ht]. destruct (IH Ht) as [IH1 IH2].
  rewrite length_append, forallb_cons_string. simpl String.length.
  apply plain_or_percent_char in Hc as (_ & _ & _ & _ & _ & [[Hp ->]|[Hp ->]]).
  - simpl String.length. split; [lia|]. intros Hl.
    rewrite Hp, IH2 by lia. reflexivity.
  - split; [lia|]. intros Hl. lia.
Qed.

Lemma path_plain_or_percent s :
  forallb path_plain (list_ascii_of_string s) = true ->
  forallb plain_or_percent (list_ascii_of_string s) = true.
Proof.
  apply forallb_weaken. intros x Hx. unfold plain_or_percent. now rewrite Hx.
Qed.

Lemma pathName_percent p :
  forallb plain_or_percent (list_ascii_of_string p) = true ->
  pathName p = (if rooted p then p else String slash p)
  /\ forallb plain_or_percent (list_ascii_of_string (pathName p)) = true.
Proof.
  intros H. unfold pathName. rewrite (replace_backslashes_percent _ H).
  destruct p as [|c t]; [split; reflexivity|]. cbn [rooted].
  destruct (Ascii.eqb c slash); [split; [reflexivity|exact H]|].
  split; [reflexivity|]. rewrite forallb_cons_string, H. reflexivity.
Qed.

Lemma uri2path_path2uri_Some p :
  rooted p = true -> forallb path_plain (list_ascii_of_string p) = true ->
  uri2path (path2uri p) = Some p.
Proof.
  intros Hr Hp. rewrite uri2path_path2uri_formula. f_equal.
  pose proof (path_plain_or_percent _ Hp) as Hpp.
  destruct (pathName_percent _ Hpp) as [Hn Hnp]. rewrite Hr in Hn.
  rewrite (parser_keeps_percent _ (encodeURI_percent_chars _ Hnp)), Hn.
  now apply encodeURI_plain.
Qed.

(** X5.  The round trip through [path2uri] and [uri2path] returns the path
    it started from exactly when the path begins with a slash and is made of
    plain characters only: a path that is not rooted, or holds a backslash, a
    character [encodeURI] escapes, a quote, a question mark or a number sign,
    comes back changed. *)
Theorem uri2path_path2uri_exactly (p : string) :
  uri2path (path2uri p) = Some p
  <-> rooted p = true /\ forallb path_plain (list_ascii_of_string p) = true.
Proof.
  rewrite uri2path_path2uri_formula. split.
  - intros [= Hq].
    (* every character that comes back is plain or a percent sign *)
    assert (Hp : forallb plain_or_percent (list_ascii_of_string p) = true).
    { rewrite <- Hq.
      pose proof (encodeURI_alphabet (pathName p)) as H0.
      apply auto_escape_chars in H0.
      apply (cut_at_chars _ "#") in H0. apply (cut_at_chars _ "?") in H0.
      revert H0. apply forallb_weaken. intros x. apply kept_char_plain_or_percent. }
    destruct (pathName_percent _ Hp) as [Hn Hnp].
    rewrite (parser_keeps_percent _ (encodeURI_percent_chars _ Hnp)) in Hq.
    destruct (encodeURI_length _ Hnp) as [Hle Hplain].
    assert (Hlen : String.length (encodeURI (pathName p)) = String.length p)
      by now rewrite Hq.
    rewrite Hn in Hle, Hplain, Hlen.
    destruct (rooted p); [split; [reflexivity|now apply Hplain]|].
    change (String.length (String slash p)) with (S (String.length p)) in Hle.
    lia.
  - intros [Hr Hp]. rewrite <- uri2path_path2uri_formula.
    now apply uri2path_path2uri_Some.
Qed.

(** X6.  A session whose client uses native paths (the constructor sets
    that, and nothing in the session changes it) hands a client path to the
    debugger unchanged, or as the URI [path2uri] makes of it when the debugger
    uses URIs, and reads a debugger path back with [uri2path] in that case; a
    rooted path of plain characters survives the way to the debugger and
    back. *)
Theorem convert_path_round_trip (this : DebugSession) (p : string) :
  _clientPathsAreURIs this = false ->
  rooted p = true ->
  forallb path_plain (list_ascii_of_string p) = true ->
  convertClientPathToDebugger this p
  = Some (if _debuggerPathsAreURIs this then path2uri p else p)
  /\ (forall q, convertDebuggerPathToClient this q
              = if _debuggerPathsAreURIs this then uri2path q else Some q)
  /\ (convertClientPathToDebugger this p ≫= convertDebuggerPathToClient this)
     = Some p.
Proof.
  intros Hc Hr Hp.
  unfold convertClientPathToDebugger, convertDebuggerPathToClient. rewrite Hc.
  destruct (_debuggerPathsAreURIs this); cbn [Bool.eqb negb mbind option_bind].
  - split; [reflexivity|]. split; [reflexivity|].
    now apply uri2path_path2uri_Some.
  - split; [reflexivity|]. split; reflexivity.
Qed.

Lemma convert_path_round_trip_witness :
  let this := setDebuggerPathFormat "uri" (DebugSession_new None None) in
  _clientPathsAreURIs this = false
  /\ convertClientPathToDebugger this "/home/user/app.js"
     = Some "file:///home/user/app.js"
  /\ (convertClientPathToDebugger this "/home/user/app.js"
      ≫= convertDebuggerPathToClient this) = Some "/home/user/app.js".
Proof.
  intros this.
  assert (Hc : _clientPathsAreURIs this = false) by reflexivity.
  split; [exact Hc|].
  destruct (convert_path_round_trip this "/home/user/app.js" Hc eq_refl eq_refl)
    as (H1 & _ & H3).
  split; [exact H1|exact H3].
Defined.

(** ** The dispatcher, in general *)

(** X7.  Whatever the handlers of the session class do, an exception
    leaves [dispatchRequest] in one case only: a handler threw [null] or
    [undefined], so that reading the message in the [catch] clause throws.
    In every other case [dispatchRequest] returns normally.  It keeps what
    the handler has sent and adds exactly one response when it caught a throw,
    none when the handler returned or the exception leaves. *)
Theorem dispatchRequest_throws_only_on_null
    (methods : Methods.t) (TypeError_message TypeError_stack : string -> string)
    (request : Request.t) (this : DebugSession) :
  let tried := dispatchRequest_try methods request (Response_new request) this in
  let o := dispatchRequest methods TypeError_message TypeError_stack request this in
  ((exists error this' r, o = Threw error this' r)
   <-> (exists this1 r1, tried = Threw ThrownNull this1 r1))
  /\ sent (outcome_session o)
     = (sent (outcome_session tried)
        ++ match tried, o with
           | Threw _ _ _, Returned _ r => [r]
           | _, _ => []
           end)%list.
Proof.
  cbv zeta.
  destruct (dispatchRequest_try methods request (Response_new request) this)
    as [this1 r1|e this1 r1] eqn:H.
  - unfold dispatchRequest. rewrite H. cbn [outcome_session].
    rewrite app_nil_r. split; [|reflexivity].
    split; [intros (? & ? & ? & [=])|intros (? & ? & [=])].
  - rewrite (dispatchRequest_Threw _ TypeError_message TypeError_stack _ _ _ _ _ H).
    destruct e as [what| |message stack]; cbn [outcome_session].
    + split; [|reflexivity].
      split; [intros (? & ? & ? & [=])|intros (? & ? & [=])].
    + rewrite app_nil_r. split; [|reflexivity]. split; eauto.
    + split; [|reflexivity].
      split; [intros (? & ? & ? & [=])|intros (? & ? & [=])].
Qed.

(** The session a dispatch with the default handlers leaves: the client
    flags of an [initialize] request taken over, the response sent, and the
    shutdown of a [disconnect] request. *)
Lemma dispatchRequest_default_session tm ts request this :
  exists r,
    dispatchRequest DebugSession_methods tm ts request this
    = Returned
        ((if String.eqb (Request.command request) "disconnect"
          then shutdown else (fun s => s))
           (sendResponse r
              (if String.eqb (Request.command request) "initialize"
               then match Request.arguments request with
                    | Some args => client_flags_from args this
                    | None => this
                    end
               else this))) r
    /\ Response.request_seq r = Request.seq request.
Proof.
  destruct request as [seq command arguments].
  cbn [Request.command Request.arguments Request.seq].
  destruct (recognized command) eqn:Hrec.
  - unfold recognized, recognized_commands in Hrec. cbn [existsb] in Hrec.
    repeat (apply Bool.orb_prop in Hrec as [Hrec|Hrec];
            [apply String.eqb_eq in Hrec; subst command|]);
      try discriminate Hrec.
    all: try (eexists; split; reflexivity).
    destruct arguments as [args|].
    + unfold dispatchRequest. rewrite dispatchRequest_try_initialize.
      destruct (bool_decide _).
      * eexists. split; reflexivity.
      * rewrite sendErrorResponse_plain by reflexivity.
        eexists. split; reflexivity.
    + erewrite dispatchRequest_Threw by reflexivity. cbv iota.
      eexists. split; reflexivity.
  - unfold dispatchRequest.
    rewrite (dispatchRequest_try_custom _ (Request.mk seq command arguments) _ _ Hrec).
    cbn [Methods.customRequest DebugSession_methods Request.command Request.arguments].
    unfold customRequest. rewrite sendErrorResponse_plain by reflexivity.
    assert (Hd : String.eqb command "disconnect" = false).
    { destruct (String.eqb_spec command "disconnect") as [->|]; [discriminate Hrec|reflexivity]. }
    assert (Hi : String.eqb command "initialize" = false).
    { destruct (String.eqb_spec command "initialize") as [->|]; [discriminate Hrec|reflexivity]. }
    rewrite Hd, Hi. eexists. split; reflexivity.
Qed.

(** X8.  A dispatch with the default handlers changes the session in three
    ways only: it sends, an [initialize] request with arguments sets each
    client flag for which it holds a boolean, and a [disconnect] request shuts
    the session down, which outside server mode schedules one exit after 100
    ms and in server mode only writes a line to the error console.  The
    debugger flags, the two path flags and the server flag are never
    touched. *)
Theorem dispatchRequest_default_frame
    (TypeError_message TypeError_stack : string -> string)
    (request : Request.t) (this : DebugSession) :
  let this' :=
    outcome_session
      (dispatchRequest DebugSession_methods TypeError_message TypeError_stack
         request this) in
  let args :=
    if String.eqb (Request.command request) "initialize"
    then Request.arguments request else None in
  let disconnect := String.eqb (Request.command request) "disconnect" in
  _debuggerLinesStartAt1 this' = _debuggerLinesStartAt1 this
  /\ _debuggerColumnsStartAt1 this' = _debuggerColumnsStartAt1 this
  /\ _debuggerPathsAreURIs this' = _debuggerPathsAreURIs this
  /\ _clientPathsAreURIs this' = _clientPathsAreURIs this
  /\ _isServer this' = _isServer this
  /\ _clientLinesStartAt1 this'
     = default (_clientLinesStartAt1 this)
         (args ≫= InitializeRequestArguments.linesStartAt1)
  /\ _clientColumnsStartAt1 this'
     = default (_clientColumnsStartAt1 this)
         (args ≫= InitializeRequestArguments.columnsStartAt1)
  /\ exit_timers this'
     = (exit_timers this
        ++ if disconnect && negb (_isServer this) then [100] else [])%list
  /\ console_error this'
     = (console_error this
        ++ if disconnect && _isServer this
           then ["process.exit ignored in server mode"] else [])%list.
Proof.
  intros this' args disconnect. subst this' args disconnect.
  destruct (dispatchRequest_default_session TypeError_message TypeError_stack
              request this) as (r & -> & _).
  cbn [outcome_session]. destruct this as [dl dc dp cl cc cp srv snt con tim].
  destruct request as [seq command [[l c pf]|]];
    cbn [Request.command Request.arguments];
    destruct (String.eqb command "disconnect") eqn:Hd;
    destruct (String.eqb command "initialize") eqn:Hi;
    try (apply String.eqb_eq in Hd; apply String.eqb_eq in Hi; congruence);
    destruct srv; try destruct l; try destruct c;
    cbn; rewrite ?app_nil_r; repeat split; reflexivity.
Qed.

Lemma dispatchRequests_cons methods tm ts request requests this :
  dispatchRequests methods tm ts (request :: requests) this
  = dispatchRequests methods tm ts requests
      (outcome_session (dispatchRequest methods tm ts request this)).
Proof. reflexivity. Qed.

(** X9.  When a list of requests is dispatched one after the other on a
    session with the default handlers, the transport receives exactly one
    response for each request, in the order of the requests and with their
    sequence numbers; the server flag and the path flags are the same at the
    end. *)
Theorem dispatchRequests_one_response_each
    (TypeError_message TypeError_stack : string -> string)
    (requests : list Request.t) (this : DebugSession) :
  let final :=
    dispatchRequests DebugSession_methods TypeError_message TypeError_stack
      requests this in
  map Response.request_seq (sent final)
  = (map Response.request_seq (sent this) ++ map Request.seq requests)%list
  /\ length (sent final) = (length (sent this) + length requests)%nat
  /\ _isServer final = _isServer this
  /\ _clientPathsAreURIs final = _clientPathsAreURIs this
  /\ _debuggerPathsAreURIs final = _debuggerPathsAreURIs this.
Proof.
  cbv zeta. revert this. induction requests as [|request requests IH]; intros this.
  - cbn. rewrite app_nil_r. repeat split; lia.
  - rewrite dispatchRequests_cons.
    destruct (IH (outcome_session
                    (dispatchRequest DebugSession_methods TypeError_message
                       TypeError_stack request this)))
      as (IH1 & IH2 & IH3 & IH4 & IH5).
    rewrite IH1, IH2, IH3, IH4, IH5. clear IH IH1 IH2 IH3 IH4 IH5.
    destruct (dispatchRequest_default_session TypeError_message TypeError_stack
                request this) as (r & -> & Hseq).
    cbn [outcome_session].
    assert (Hsent :
      sent ((if String.eqb (Request.command request) "disconnect"
             then shutdown else (fun s => s))
              (sendResponse r
                 (if String.eqb (Request.command request) "initialize"
                  then match Request.arguments request with
                       | Some args => client_flags_from args this
                       | None => this
                       end
                  else this)))
      = (sent this ++ [r])%list).
    { destruct (String.eqb (Request.command request) "disconnect");
        rewrite ?sent_shutdown, sent_sendResponse;
        destruct (String.eqb (Request.command request) "initialize");
        try destruct (Request.arguments request);
        rewrite ?sent_client_flags_from; reflexivity. }
    rewrite Hsent, map_app, length_app. cbn [map length]. rewrite Hseq, <- app_assoc.
    split; [reflexivity|]. split; [lia|].
    destruct this as [dl dc dp cl cc cp srv snt con tim].
    destruct (String.eqb (Request.command request) "disconnect"),
      (String.eqb (Request.command request) "initialize");
      try destruct (Request.arguments request) as [[[] [] pf]|];
      destruct srv; cbn; repeat split; reflexivity.
Qed.

Lemma formatPII_replacer_underscore_only redact (args : gmap string string) m name :
  (forall k, is_Some (args !! k) -> starts_with_underscore k = true) ->
  name <> EmptyString ->
  formatPII_replacer redact (Some args) m name
  = formatPII_replacer false (Some args) m name.
Proof.
  intros Hkeys Hne. destruct redact; [|reflexivity].
  unfold formatPII_replacer.
  assert (Hlen : (0 <? String.length name)%nat = true)
    by (destruct name; [congruence|reflexivity]).
  rewrite Hlen. cbn [andb].
  destruct (starts_with_underscore name) eqn:Hu; [reflexivity|].
  cbn [negb]. unfold truthy_get, hasOwnProperty.
  assert (Hn : args !! name = None).
  { destruct (args !! name) eqn:E; [|reflexivity].
    rewrite (Hkeys name) in Hu by eauto. discriminate. }
  assert (Hown : args !! "hasOwnProperty" = None).
  { destruct (args !! "hasOwnProperty") eqn:E; [|reflexivity].
    pose proof (Hkeys "hasOwnProperty" ltac:(eauto)) as H. discriminate H. }
  rewrite Hn, Hown. destruct (inherited name); [|reflexivity].
  cbn [bind]. rewrite bool_decide_eq_false_2 by (intros [? ?]; discriminate).
  reflexivity.
Qed.

(** X10.  When every variable of the mapping has a name that starts with
    an underscore, redaction changes nothing: every template is rendered with
    redaction as it is without. *)
Theorem formatPII_underscore_only
    (format : string) (redact : bool) (args : gmap string string) :
  (forall k, is_Some (args !! k) -> starts_with_underscore k = true) ->
  formatPII (Some format) redact (Some args)
  = formatPII (Some format) false (Some args).
Proof.
  intros Hkeys. unfold formatPII. apply String_replace_ext.
  intros m n Hn. now apply formatPII_replacer_underscore_only.
Qed.

Lemma formatPII_underscore_only_witness :
  formatPII (Some "{_exception} at {_stack} for {user}") true
    (Some (<["_exception" := "boom"]> (<["_stack" := "main"]> ∅)))
  = formatPII (Some "{_exception} at {_stack} for {user}") false
      (Some (<["_exception" := "boom"]> (<["_stack" := "main"]> ∅))).
Proof.
  apply (formatPII_underscore_only "{_exception} at {_stack} for {user}" true
           (<["_exception" := "boom"]> (<["_stack" := "main"]> ∅))).
  intros k [v Hk].
  destruct (decide (k = "_exception")) as [->|H1]; [reflexivity|].
  destruct (decide (k = "_stack")) as [->|H2]; [reflexivity|].
  rewrite !lookup_insert_ne, lookup_empty in Hk by congruence. discriminate.
Defined.

(** ** Starting and shutting down *)

Lemma is_digit_value c :
  is_digit c = true -> 0 <= Z.of_N (N_of_ascii c) - 48 <= 9.
Proof.
  unfold is_digit. intros H. apply andb_prop in H as [H1 H2].
  apply N.leb_le in H1, H2. lia.
Qed.

Lemma parseInt_from_bounds digits acc :
  forallb is_digit (list_ascii_of_string digits) = true -> 0 <= acc ->
  acc * 10 ^ Z.of_nat (String.length digits) <= parseInt_from acc digits
  /\ parseInt_from acc digits < (acc + 1) * 10 ^ Z.of_nat (String.length digits).
Proof.
  revert acc. induction digits as [|c t IH]; intros acc H Hacc.
  - cbn. lia.
  - rewrite forallb_cons_string in H. apply andb_prop in H as [Hc Ht].
    apply is_digit_value in Hc. cbn [parseInt_from String.length].
    destruct (IH (10 * acc + (Z.of_N (N_of_ascii c) - 48)) Ht ltac:(lia)) as [L U].
    rewrite Nat2Z.inj_succ, Z.pow_succ_r by lia.
    assert (Hpow : 0 < 10 ^ Z.of_nat (String.length t)) by (apply Z.pow_pos_nonneg; lia).
    split; nia.
Qed.

Lemma portMatch_bounds val digits :
  portMatch val = Some digits -> 0 <= parseInt digits < 100000.
Proof.
  unfold portMatch. destruct (strip_prefix "--server=" val) as [d|]; [|discriminate].
  destruct (forallb is_digit (list_ascii_of_string d)) eqn:Hd; [|discriminate].
  cbn [andb]. intros H.
  destruct (Nat.eqb_spec (String.length d) 4) as [H4|_];
    [|destruct (Nat.eqb_spec (String.length d) 5) as [H5|_]; [|discriminate]];
    injection H as <-;
    destruct (parseInt_from_bounds d 0 Hd ltac:(lia)) as [L U];
    unfold parseInt; [rewrite H4 in L, U|rewrite H5 in L, U];
    change (10 ^ Z.of_nat 4) with 10000 in *;
    change (10 ^ Z.of_nat 5) with 100000 in *; lia.
Qed.

Lemma fold_port_bounds vals port :
  0 <= port < 100000 ->
  0 <= fold_left
         (fun port val =>
            match portMatch val with
            | Some digits => parseInt digits
            | None => port
            end) vals port < 100000.
Proof.
  revert port. induction vals as [|v vals IH]; intros port Hp; [exact Hp|].
  cbn [fold_left]. apply IH.
  destruct (portMatch v) as [d|] eqn:E; [now apply portMatch_bounds in E|exact Hp].
Qed.

Lemma shutdown_server this :
  _isServer this = true ->
  _isServer (shutdown this) = true /\ exit_timers (shutdown this) = exit_timers this.
Proof. unfold shutdown. intros ->. split; reflexivity. Qed.

Lemma shutdown_server_iter n this :
  _isServer this = true ->
  _isServer (Nat.iter n shutdown this) = true
  /\ exit_timers (Nat.iter n shutdown this) = exit_timers this.
Proof.
  intros H. induction n as [|n [IH1 IH2]]; [split; [exact H|reflexivity]|].
  change (Nat.iter (S n) shutdown this) with (shutdown (Nat.iter n shutdown this)).
  destruct (shutdown_server _ IH1) as [H1 H2].
  split; [exact H1|]. now rewrite H2.
Qed.

(** X11.  Whatever the command line is, the port [run] reads from it is
    between 0 and 99999.  With port 0 (no server flag, or one with the number
    zero) it starts one session on the standard streams; with a port from 1
    to 65535 it listens on that port; with a port from 65536 to 99999
    [listen] throws and nothing is started.  A session for a server
    connection is in server mode, so that no number of shutdowns schedules an
    exit of the process; the session on the standard streams schedules the
    exit 100 ms after its shutdown. *)
Theorem run_server_or_stdio (argv : list string) :
  0 <= run_port argv < 100000
  /\ match run argv with
     | Server port session =>
         port = run_port argv /\ 1 <= port <= 65535
         /\ _isServer session = true
         /\ forall n, exit_timers (Nat.iter n shutdown session) = []
     | Stdio session =>
         run_port argv = 0
         /\ _isServer session = false
         /\ exit_timers (shutdown session) = [100]
     | RangeError port =>
         port = run_port argv /\ 65536 <= port <= 99999
     end.
Proof.
  assert (Hp : 0 <= run_port argv < 100000) by (apply fold_port_bounds; lia).
  split; [exact Hp|]. unfold run.
  destruct (Z.ltb_spec 0 (run_port argv)) as [Hpos|Hzero].
  - destruct (Z.ltb_spec (run_port argv) 65536) as [Hlow|Hhigh].
    + split; [reflexivity|]. split; [lia|]. split; [reflexivity|].
      intros n. now apply shutdown_server_iter.
    + split; [reflexivity|lia].
  - split; [lia|]. split; reflexivity.
Qed.

(** X12.  Among the arguments after the first two, the last one that is a
    server flag decides: it sets the port to its number, also when that is
    zero, in which case no server is started; a last argument that is no
    server flag changes nothing. *)
Theorem run_port_last_flag (argv : list string) (val : string) :
  (2 <= length argv)%nat ->
  run_port (argv ++ [val])
  = match portMatch val with
    | Some digits => parseInt digits
    | None => run_port argv
    end
  /\ (forall a b a' b' rest, run_port (a :: b :: rest) = run_port (a' :: b' :: rest))
  /\ (forall digits,
        portMatch val = Some digits -> parseInt digits = 0 ->
        run (argv ++ [val]) = Stdio (DebugSession_new (Some false) None)).
Proof.
  intros Hlen.
  assert (Hlast : run_port (argv ++ [val])
                  = match portMatch val with
                    | Some digits => parseInt digits
                    | None => run_port argv
                    end).
  { unfold run_port. rewrite skipn_app.
    replace (2 - length argv)%nat with 0%nat by lia. cbn [skipn].
    rewrite fold_left_app. reflexivity. }
  split; [exact Hlast|]. split; [reflexivity|].
  intros digits Hm Hz. unfold run. rewrite Hlast, Hm, Hz. reflexivity.
Qed.

Lemma run_port_last_flag_witness :
  (2 <= length ["node"; "adapter.js"; "--server=4711"])%nat
  /\ run_port (["node"; "adapter.js"; "--server=4711"] ++ ["--server=0000"]) = 0
  /\ run_port (["node"; "adapter.js"; "--server=4711"] ++ ["--server=123"]) = 4711.
Proof.
  assert (H : (2 <= length ["node"; "adapter.js"; "--server=4711"])%nat)
    by (cbn; lia).
  split; [exact H|]. split.
  - rewrite (proj1 (run_port_last_flag _ "--server=0000" H)). reflexivity.
  - rewrite (proj1 (run_port_last_flag _ "--server=123" H)). reflexivity.
Defined.

(** ** The value objects *)

Lemma append_nonempty a b : a <> EmptyString -> a ++ b <> EmptyString.
Proof. destruct a; [congruence|]. rewrite append_cons. discriminate. Qed.

(** X13.  A thread always has a name that is not empty: the one given, or,
    when none or an empty one is given, ["Thread #"] followed by its id. *)
Theorem Thread_new_name (Number_toString : Z -> string) (id : Z)
    (name : option string) :
  Thread.name (Thread_new Number_toString id name) <> EmptyString
  /\ Thread.id (Thread_new Number_toString id name) = id
  /\ (Thread.name (Thread_new Number_toString id name)
      = "Thread #" ++ Number_toString id
      <-> name = None \/ name = Some EmptyString
          \/ name = Some ("Thread #" ++ Number_toString id)).
Proof.
  unfold Thread_new. destruct name as [n|].
  - destruct (String.eqb_spec n EmptyString) as [->|Hn]; cbn [negb Thread.name Thread.id].
    + split; [now apply append_nonempty|]. split; [reflexivity|].
      split; auto.
    + split; [exact Hn|]. split; [reflexivity|]. split.
      * intros ->. auto.
      * intros [H|[H|H]]; [discriminate|congruence|congruence].
  - cbn [Thread.name Thread.id].
    split; [now apply append_nonempty|]. split; [reflexivity|]. split; auto.
Qed.

(** X14.  The optional texts of the value objects are never present and
    empty: a stopped event has no [text] and a source no [origin] when the
    constructor gets none or an empty one, and has exactly the given one
    otherwise; the other fields are the arguments, with 0 as the default
    source reference. *)
Theorem optional_text_never_empty (reason name path : string) (threadId : Z)
    (id : option Z) (text : option string) :
  StoppedEvent.text (StoppedEvent_new reason threadId text) <> Some EmptyString
  /\ Source.origin (Source_new name path id text) <> Some EmptyString
  /\ (StoppedEvent.text (StoppedEvent_new reason threadId text) = None
      <-> text = None \/ text = Some EmptyString)
  /\ (forall t, StoppedEvent.text (StoppedEvent_new reason threadId text) = Some t
                -> text = Some t)
  /\ Source.origin (Source_new name path id text)
     = StoppedEvent.text (StoppedEvent_new reason threadId text)
  /\ Source.sourceReference (Source_new name path None text) = 0.
Proof.
  unfold StoppedEvent_new, Source_new. cbn [StoppedEvent.text Source.origin].
  destruct text as [t|].
  - destruct (String.eqb_spec t EmptyString) as [->|Ht]; cbn [negb].
    + repeat split; try discriminate; auto.
    + repeat split; try congruence; try reflexivity.
      * intros [H|H]; congruence.
  - repeat split; try discriminate; auto.
Qed.
